(** * SemanticFirewall: orchestration and decision policy

    A shallow embedding of [src/semantic_firewall.py] (class
    [SemanticFirewall]) and the properties of its two public methods,
    [analyze_conversation] and [is_manipulative].

    Python values are dynamically typed, so the embedding works over a small
    universe of Python values ([pyval]); operations that Python would reject
    at run time ([None.lower()], ["a" >= 0.75], item assignment on a
    non-mapping) raise the exception Python raises.  Logging is part of the
    observable behaviour of the class, so every method runs in a small
    monad that collects the log records and carries a possible exception. *)

From Stdlib Require Import Bool List String Ascii ZArith QArith Lia.
Import ListNotations.

Local Open Scope string_scope.
Local Open Scope list_scope.

(** ** Python values *)

Module Py.

(** Python [float]s and [int]s compare by their exact mathematical value;
    a finite float is a rational.  [pyfloat] is the extended rational line
    with a NaN: every Python float (and every int, through [of_Z]) is one
    of its elements. *)
Inductive pyfloat : Type :=
| FNaN
| FPosInf
| FNegInf
| FFin (q : Q).

Definition of_Z (z : Z) : pyfloat := FFin (inject_Z z).
Definition zero : pyfloat := FFin 0%Q.

(** [float_ge x y] is Python's [x >= y] on numbers: false as soon as one
    side is NaN. *)
Definition float_ge (x y : pyfloat) : bool :=
  match x, y with
  | FNaN, _ | _, FNaN => false
  | FPosInf, _ => true
  | _, FNegInf => true
  | FNegInf, _ => false
  | FFin _, FPosInf => false
  | FFin a, FFin b => Qle_bool b a
  end.

(** [float_lt x y] is Python's [x < y]. *)
Definition float_lt (x y : pyfloat) : bool :=
  match x, y with
  | FNaN, _ | _, FNaN => false
  | FPosInf, _ => false
  | FNegInf, FNegInf => false
  | FNegInf, _ => true
  | FFin _, FPosInf => true
  | FFin _, FNegInf => false
  | FFin a, FFin b => negb (Qle_bool b a)
  end.

#[warnings="-register-all"] Inductive pyval : Type :=
| VNone
| VBool (b : bool)
| VInt (z : Z)
| VFloat (x : pyfloat)
| VStr (s : string)
| VDict (d : list (string * pyval)).

(** A [dict] with [str] keys, in insertion order. *)
Definition dict : Type := list (string * pyval).

(** An instance of [Exception], what [except Exception] catches: the name
    of its class and its message. *)
Record exn : Type := Exn { exn_type : string; exn_msg : string }.

(** [str(e)] *)
Definition str_of_exn (e : exn) : string := exn_msg e.

Inductive res (A : Type) : Type :=
| Ok (a : A)
| Raise (e : exn).
Arguments Ok {A} a.
Arguments Raise {A} e.

Definition type_name (v : pyval) : string :=
  match v with
  | VNone => "NoneType"
  | VBool _ => "bool"
  | VInt _ => "int"
  | VFloat _ => "float"
  | VStr _ => "str"
  | VDict _ => "dict"
  end.

Definition TypeError (msg : string) : exn := Exn "TypeError" msg.
Definition AttributeError (msg : string) : exn := Exn "AttributeError" msg.
Definition OverflowError (msg : string) : exn := Exn "OverflowError" msg.
Definition ValueError (msg : string) : exn := Exn "ValueError" msg.

(** *** Strings *)

(** [str.lower()] on the ASCII letters, the alphabet of the detectors'
    classification labels. *)
Definition lower_ascii (c : ascii) : ascii :=
  let n := nat_of_ascii c in
  if (65 <=? n)%nat && (n <=? 90)%nat then ascii_of_nat (n + 32) else c.

Fixpoint lower (s : string) : string :=
  match s with
  | EmptyString => EmptyString
  | String c s' => String (lower_ascii c) (lower s')
  end.

(** [needle in hay] for two [str]s. *)
Fixpoint str_in (needle hay : string) : bool :=
  if prefix needle hay then true
  else match hay with
       | EmptyString => false
       | String _ hay' => str_in needle hay'
       end.

(** [v.lower()]: only a [str] has the method. *)
Definition py_lower (v : pyval) : res string :=
  match v with
  | VStr s => Ok (lower s)
  | _ => Raise (AttributeError
                  ("'" ++ type_name v ++ "' object has no attribute 'lower'"))
  end.

(** [v == s] for a [str] literal [s]; a value of another type is unequal. *)
Definition py_eq_str (v : pyval) (s : string) : bool :=
  match v with
  | VStr s' => (s' =? s)%string
  | _ => false
  end.

(** *** Numbers *)

Definition to_number (v : pyval) : option pyfloat :=
  match v with
  | VBool b => Some (of_Z (if b then 1 else 0))
  | VInt z => Some (of_Z z)
  | VFloat x => Some x
  | _ => None
  end.

(** [v >= threshold], the right operand being the [float] that the
    signature of [is_manipulative] declares: numeric and exact for [bool],
    [int] and [float] (no conversion of an [int], hence no overflow); a
    [TypeError] for anything else. *)
Definition py_ge (v : pyval) (threshold : pyfloat) : res bool :=
  match to_number v with
  | Some x => Ok (float_ge x threshold)
  | None => Raise (TypeError
                     ("'>=' not supported between instances of '"
                        ++ type_name v ++ "' and 'float'"))
  end.

(** [float(z)] overflows: the nearest double of [z], ties to even, is
    beyond the largest one, [2^1024 - 2^971]. *)
Definition float_overflows (z : Z) : bool :=
  (2 ^ 1024 - 2 ^ 970 <=? Z.abs z)%Z.
Arguments float_overflows : simpl never.

(** [format(v, ".2f")], the conversion behind [{v:.2f}] in an f-string, as
    far as it can fail: a [float] always formats (also [nan] and [inf]), a
    [bool] formats as an [int], an [int] is first converted to a [float]. *)
Definition py_format_2f (v : pyval) : res unit :=
  match v with
  | VBool _ | VFloat _ => Ok tt
  | VInt z =>
      if float_overflows z
      then Raise (OverflowError "int too large to convert to float")
      else Ok tt
  | VStr _ =>
      Raise (ValueError "Unknown format code 'f' for object of type 'str'")
  | VNone | VDict _ =>
      Raise (TypeError ("unsupported format string passed to "
                          ++ type_name v ++ ".__format__"))
  end.

(** *** Dictionaries *)

Fixpoint dict_get (k : string) (d : dict) : option pyval :=
  match d with
  | [] => None
  | (k', v) :: d' => if (k' =? k)%string then Some v else dict_get k d'
  end.

(** [k in d] *)
Definition dict_contains (k : string) (d : dict) : bool :=
  match dict_get k d with Some _ => true | None => false end.

(** [d.get(k)] *)
Definition get (k : string) (d : dict) : pyval :=
  match dict_get k d with Some v => v | None => VNone end.

(** [d.get(k, default)] *)
Definition get_default (k : string) (default : pyval) (d : dict) : pyval :=
  match dict_get k d with Some v => v | None => default end.

(** [d[k] = v]: an existing key keeps its position, a new key goes last. *)
Fixpoint dict_set (k : string) (v : pyval) (d : dict) : dict :=
  match d with
  | [] => [(k, v)]
  | (k', v') :: d' =>
      if (k' =? k)%string then (k, v) :: d' else (k', v') :: dict_set k v d'
  end.

Definition keys (d : dict) : list string := map fst d.

(** [target[k] = v] on an arbitrary value. *)
Definition setitem (target : pyval) (k : string) (v : pyval) : res pyval :=
  match target with
  | VDict d => Ok (VDict (dict_set k v d))
  | _ => Raise (TypeError
                  ("'" ++ type_name target
                       ++ "' object does not support item assignment"))
  end.

End Py.
Import Py.

(** ** Log records and the method monad *)

(** One constructor per logging call of the class, with the values the
    call interpolates into its message. *)
Inductive log_record : Type :=
| LogInitialized (names : list string)                  (* info, __init__ *)
| LogInitFailed (e : exn)                               (* error, __init__ *)
| LogDetectorFailed (detector_name : string) (e : exn)  (* error, analyze_conversation *)
| LogSkipErrored (detector_name : string) (error : pyval)  (* warning *)
| LogUnhandled (detector_name : string)                 (* warning *)
| LogFlagged (detector_name : string) (classification score : pyval)
             (threshold : pyfloat)                      (* info *)
| LogUnexpectedType (detector_name : string) (type : string). (* warning *)

(** A computation writes log records and ends with a value or an
    exception. *)
Definition M (A : Type) : Type := list log_record * res A.

Definition ret {A} (a : A) : M A := ([], Ok a).

Definition raise {A} (e : exn) : M A := ([], Raise e).

Definition bind {A B} (m : M A) (f : A -> M B) : M B :=
  match m with
  | (l, Ok a) => let (l', r) := f a in (l ++ l', r)
  | (l, Raise e) => (l, Raise e)
  end.

Definition log (r : log_record) : M unit := ([r], Ok tt).

Definition lift {A} (r : res A) : M A := ([], r).

(** [try: body except Exception as e: handler e] *)
Definition try_except {A} (body : M A) (handler : exn -> M A) : M A :=
  match body with
  | (l, Raise e) => let (l', r) := handler e in (l ++ l', r)
  | done => done
  end.

Declare Scope fw_scope.
Delimit Scope fw_scope with fw.
Notation "x <- m ;; k" := (bind m (fun x => k))
  (at level 61, m at next level, right associativity) : fw_scope.
Notation "m ;;; k" := (bind m (fun _ => k))
  (at level 61, right associativity) : fw_scope.
Local Open Scope fw_scope.

Definition logs {A} (m : M A) : list log_record := fst m.
Definition outcome {A} (m : M A) : res A := snd m.

(** ** The class [SemanticFirewall] *)

(** A detector object, as the firewall uses it: the name of its class and
    its [analyze_text] method, which returns a value or raises.  The
    detectors themselves are external to this file. *)
Definition analyze_fn : Type := string -> option (list string) -> res pyval.

Record detector : Type := Detector {
  class_name : string;
  analyze_text : analyze_fn
}.

Record firewall : Type := Firewall { detectors : list detector }.

(** [__init__]: the four constructors run in order; the first one that
    raises is logged and re-raised.  A constructor that succeeds yields the
    behaviour of the new object's [analyze_text]. *)
Definition init (new_rule_based new_ml_based new_echo_chamber new_injection
                   : res analyze_fn) : M firewall :=
  try_except
    (rb <- lift new_rule_based ;;
     ml <- lift new_ml_based ;;
     ec <- lift new_echo_chamber ;;
     inj <- lift new_injection ;;
     let ds := [ Detector "RuleBasedDetector" rb;
                 Detector "MLBasedDetector" ml;
                 Detector "EchoChamberDetector" ec;
                 Detector "InjectionDetector" inj ] in
     log (LogInitialized (map class_name ds)) ;;;
     ret (Firewall ds))
    (fun e => log (LogInitFailed e) ;;; raise e).

(** The entry stored for a detector that raised. *)
Definition error_placeholder (e : exn) : pyval :=
  VDict [ ("error", VStr (str_of_exn e));
          ("classification", VStr "error_detector_failed") ].

(** The body of the [for] loop of [analyze_conversation], lines 63-78.
    A result is a value here, not a reference: each detector is taken to
    return an object of its own, so that the assignment of line 74 changes
    the entry of the MLBasedDetector and no other. *)
Definition analyze_one (d : detector) (current_message : string)
    (conversation_history : option (list string)) (all_results : dict)
    : M dict :=
  let detector_name := class_name d in
  try_except
    (result <- lift (analyze_text d current_message conversation_history) ;;
     result <- (if (detector_name =? "MLBasedDetector")%string
                then lift (setitem result "classification"
                             (VStr "neutral_ml_placeholder"))
                else ret result) ;;
     ret (dict_set detector_name result all_results))
    (fun e =>
       log (LogDetectorFailed detector_name e) ;;;
       ret (dict_set detector_name (error_placeholder e) all_results)).

Fixpoint analyze_loop (ds : list detector) (current_message : string)
    (conversation_history : option (list string)) (all_results : dict)
    : M dict :=
  match ds with
  | [] => ret all_results
  | d :: ds' =>
      all_results' <- analyze_one d current_message conversation_history
                        all_results ;;
      analyze_loop ds' current_message conversation_history all_results'
  end.

Definition analyze_conversation (self : firewall) (current_message : string)
    (conversation_history : option (list string)) : M dict :=
  analyze_loop (detectors self) current_message conversation_history [].

(** The [if]/[elif] chain of lines 112-145: whether the classification
    flags the entry, and the score to compare with the threshold. *)
Definition normalize (detector_name : string)
    (detector_classification : string) (result : dict) : M (bool * pyval) :=
  if (detector_name =? "RuleBasedDetector")%string then
    ret (str_in "concern" detector_classification
         || str_in "manipulative" detector_classification,
         get_default "rule_based_probability" (VFloat zero) result)
  else if (detector_name =? "MLBasedDetector")%string then
    ret (str_in "manipulative" detector_classification
         || str_in "concern" detector_classification,
         get_default "ml_model_confidence" (VFloat zero) result)
  else if (detector_name =? "EchoChamberDetector")%string then
    ret (str_in "echo_chamber" detector_classification
         && negb (str_in "benign" detector_classification),
         get_default "echo_chamber_probability" (VFloat zero) result)
  else if (detector_name =? "InjectionDetector")%string then
    ret (str_in "injection" detector_classification
         && negb (str_in "benign" detector_classification),
         get_default "score" (VFloat zero) result)
  else
    log (LogUnhandled detector_name) ;;;
    ret (str_in "manipulative" detector_classification
         || str_in "concern" detector_classification
         || (str_in "potential" detector_classification
             && negb (str_in "benign" detector_classification)),
         get_default "probability"
           (get_default "confidence"
              (get_default "score" (VFloat zero) result) result) result).

(** The body of the [for] loop of [is_manipulative], lines 102-156:
    [Some true] when the body executes [return True], [None] when control
    reaches the next iteration.  The message of [logger.info] is built
    before the call, and its [{score_for_thresholding:.2f}] is the one part
    that can fail: the classification is a string by then and the threshold
    a float. *)
Definition check_entry (detector_name : string) (result : pyval)
    (threshold : pyfloat) : M (option bool) :=
  match result with
  | VDict r =>
      if dict_contains "error" r
         && py_eq_str (get "classification" r) "error_detector_failed"
      then
        log (LogSkipErrored detector_name (get "error" r)) ;;;
        ret None
      else
        detector_classification <-
          lift (py_lower (get_default "classification" (VStr "unknown") r)) ;;
        flag_score <- normalize detector_name detector_classification r ;;
        let (is_flagged_by_detector, score_for_thresholding) := flag_score in
        if is_flagged_by_detector then
          reached <- lift (py_ge score_for_thresholding threshold) ;;
          if (reached : bool) then
            lift (py_format_2f score_for_thresholding) ;;;
            log (LogFlagged detector_name
                   (get_default "classification" (VStr "N/A") r)
                   score_for_thresholding threshold) ;;;
            ret (Some true)
          else ret None
        else ret None
  | _ =>
      log (LogUnexpectedType detector_name (type_name result)) ;;;
      ret None
  end.

(** The loop over [analysis_results.items()] and the final
    [return False]. *)
Fixpoint decide (analysis_results : dict) (threshold : pyfloat) : M bool :=
  match analysis_results with
  | [] => ret false
  | (detector_name, result) :: rest =>
      r <- check_entry detector_name result threshold ;;
      match r with
      | Some b => ret b
      | None => decide rest threshold
      end
  end.

Definition is_manipulative (self : firewall) (current_message : string)
    (conversation_history : option (list string)) (threshold : pyfloat)
    : M bool :=
  analysis_results <-
    analyze_conversation self current_message conversation_history ;;
  decide analysis_results threshold.

(** The default of the [threshold] parameter. *)
Definition default_threshold : pyfloat := FFin (3 # 4).

(** ** The normalization rules as a table

    The specification describes the decision policy declaratively: each
    analyzer kind has flag rules (a keyword the lower-cased classification
    must contain, and keywords it must not contain) and an ordered list of
    score fields, the first present one being authoritative.  The
    definitions of this module follow that description; the theorems below
    compare them with the conditionals of [is_manipulative]. *)

Module Spec.

Record flag_rule : Type := Rule {
  label_has : string;
  label_lacks : list string
}.

Record kind_policy : Type := Policy {
  flag_rules : list flag_rule;
  score_fields : list string
}.

Definition rule_based_policy : kind_policy :=
  Policy [Rule "concern" []; Rule "manipulative" []]
         ["rule_based_probability"].

Definition ml_based_policy : kind_policy :=
  Policy [Rule "manipulative" []; Rule "concern" []]
         ["ml_model_confidence"].

Definition echo_chamber_policy : kind_policy :=
  Policy [Rule "echo_chamber" ["benign"]] ["echo_chamber_probability"].

Definition injection_policy : kind_policy :=
  Policy [Rule "injection" ["benign"]] ["score"].

Definition generic_policy : kind_policy :=
  Policy [Rule "manipulative" []; Rule "concern" [];
          Rule "potential" ["benign"]]
         ["probability"; "confidence"; "score"].

Definition policy_table : list (string * kind_policy) :=
  [ ("RuleBasedDetector", rule_based_policy);
    ("MLBasedDetector", ml_based_policy);
    ("EchoChamberDetector", echo_chamber_policy);
    ("InjectionDetector", injection_policy) ].

Definition registered_kinds : list string := map fst policy_table.

Definition registered_kind (name : string) : bool :=
  existsb (fun k => (name =? k)%string) registered_kinds.

Definition policy_of (name : string) : kind_policy :=
  match find (fun kp => (name =? fst kp)%string) policy_table with
  | Some kp => snd kp
  | None => generic_policy
  end.

Definition rule_matches (label : string) (r : flag_rule) : bool :=
  str_in (label_has r) label
  && forallb (fun w => negb (str_in w label)) (label_lacks r).

(** The keyword policy of a kind, on a lower-cased classification. *)
Definition flagged (p : kind_policy) (label : string) : bool :=
  existsb (rule_matches label) (flag_rules p).

Fixpoint first_present (fields : list string) (r : dict) : option pyval :=
  match fields with
  | [] => None
  | f :: fields' =>
      match dict_get f r with
      | Some v => Some v
      | None => first_present fields' r
      end
  end.

(** The authoritative score of a result: the first present score field of
    its kind, [0.0] when none is present. *)
Definition score (p : kind_policy) (r : dict) : pyval :=
  match first_present (score_fields p) r with
  | Some v => v
  | None => VFloat zero
  end.

Definition score_absent (name : string) (r : dict) : Prop :=
  first_present (score_fields (policy_of name)) r = None.

(** An entry is errored when its classification is the failure label. *)
Definition errored (r : dict) : bool :=
  py_eq_str (get "classification" r) "error_detector_failed".

(** The lower-cased classification, ["unknown"] when the field is absent. *)
Definition label (r : dict) : option string :=
  match get_default "classification" (VStr "unknown") r with
  | VStr s => Some (lower s)
  | _ => None
  end.

(** An entry qualifies when it is a mapping, not errored, flagged by the
    keyword policy of its kind, with an authoritative score that reaches the
    threshold. *)
Definition qualifies (name : string) (v : pyval) (threshold : pyfloat)
    : bool :=
  match v with
  | VDict r =>
      negb (errored r)
      && match label r with
         | Some l => flagged (policy_of name) l
         | None => false
         end
      && match to_number (score (policy_of name) r) with
         | Some x => float_ge x threshold
         | None => false
         end
  | _ => false
  end.

(** A score that can be written with two decimals: a float, a bool, or an
    int within the range of the floats. *)
Definition formattable (v : pyval) : bool :=
  match v with
  | VBool _ | VFloat _ => true
  | VInt z => negb (float_overflows z)
  | _ => false
  end.

(** An entry triggers when it qualifies and its score can be written in
    the log message. *)
Definition triggers (name : string) (v : pyval) (threshold : pyfloat)
    : bool :=
  qualifies name v threshold
  && match v with
     | VDict r => formattable (score (policy_of name) r)
     | _ => false
     end.

(** The error of a result, when it is a mapping that has one, is a
    string, as the analyzer contract has it; the warning that reports a
    skipped entry writes it out. *)
Definition error_is_text (v : pyval) : bool :=
  match v with
  | VDict r =>
      match dict_get "error" r with
      | Some (VStr _) | None => true
      | Some _ => false
      end
  | _ => true
  end.

(** A well-formed analyzer result: when it is a mapping, its
    classification (if present) is a string, its authoritative score (if
    present) is a number, and its error (if present) is a string.  A
    non-mapping is accepted here: the decision loop reports it and moves
    on. *)
Definition well_formed (name : string) (v : pyval) : bool :=
  match v with
  | VDict r =>
      match label r with Some _ => true | None => false end
      && match to_number (score (policy_of name) r) with
         | Some _ => true
         | None => false
         end
      && error_is_text v
  | _ => true
  end.

Definition well_formed_results (results : dict) : Prop :=
  Forall (fun kv => well_formed (fst kv) (snd kv) = true) results.

End Spec.

Import Spec.

(** ** What one call of [analyze_conversation] stores

    [analyze_one] always ends by assigning [all_results[detector_name]];
    the next definitions name the assigned value and the record logged on
    the way, as functions of the detector's behaviour. *)

Definition ml_sentinel : pyval := VStr "neutral_ml_placeholder".

Definition stored_entry (d : detector) (msg : string)
    (hist : option (list string)) : pyval :=
  match analyze_text d msg hist with
  | Raise e => error_placeholder e
  | Ok v =>
      if (class_name d =? "MLBasedDetector")%string then
        match v with
        | VDict r => VDict (dict_set "classification" ml_sentinel r)
        | _ => error_placeholder
                 (TypeError ("'" ++ type_name v
                               ++ "' object does not support item assignment"))
        end
      else v
  end.

Definition failure_log (d : detector) (msg : string)
    (hist : option (list string)) : list log_record :=
  match analyze_text d msg hist with
  | Raise e => [LogDetectorFailed (class_name d) e]
  | Ok v =>
      if (class_name d =? "MLBasedDetector")%string then
        match v with
        | VDict _ => []
        | _ => [LogDetectorFailed (class_name d)
                  (TypeError ("'" ++ type_name v
                                ++ "' object does not support item assignment"))]
        end
      else []
  end.

Definition store_all (ds : list detector) (msg : string)
    (hist : option (list string)) (acc : dict) : dict :=
  fold_left
    (fun acc d => dict_set (class_name d) (stored_entry d msg hist) acc)
    ds acc.

Definition names (self : firewall) : list string :=
  map class_name (detectors self).

(** The warning of the generic branch, logged for unregistered kinds only. *)
Definition unhandled_log (name : string) : list log_record :=
  if registered_kind name then [] else [LogUnhandled name].

Definition is_flagged_record (r : log_record) : bool :=
  match r with
  | LogFlagged _ _ _ _ => true
  | _ => false
  end.

(** The records the decision loop writes while it walks over [results]
    without returning. *)
Definition scan_log (results : dict) (threshold : pyfloat)
    : list log_record :=
  flat_map (fun kv => logs (check_entry (fst kv) (snd kv) threshold)) results.

(** The record written just before [return True]. *)
Definition flagged_record (name : string) (r : dict) (threshold : pyfloat)
    : log_record :=
  LogFlagged name (get_default "classification" (VStr "N/A") r)
    (score (policy_of name) r) threshold.

(** No entry of [results] qualifies. *)
Definition none_qualifies (results : dict) (threshold : pyfloat) : Prop :=
  forall name v, In (name, v) results -> qualifies name v threshold = false.

(** What the MLBasedDetector's entry looks like once stored: its
    classification is the sentinel, or it is the failure placeholder. *)
Definition neutralised (v : pyval) : Prop :=
  (exists r, v = VDict r /\ dict_get "classification" r = Some ml_sentinel)
  \/ (exists e, v = error_placeholder e).

(** ** Sample detectors and firewalls *)

Module Samples.

(** A detector stub that gives the same answer to every call. *)
Definition always (r : res pyval) : analyze_fn := fun _ _ => r.

Definition boom : exn := Exn "RuntimeError" "boom".

Definition rule_hit (p : Q) : pyval :=
  VDict [ ("classification", VStr "manipulative_pattern");
          ("rule_based_probability", VFloat (FFin p)) ].

Definition ml_hit : pyval :=
  VDict [ ("classification", VStr "manipulative");
          ("ml_model_confidence", VFloat (FFin 1)) ].

Definition echo_benign : pyval :=
  VDict [ ("classification", VStr "benign");
          ("echo_chamber_probability", VFloat (FFin (1 # 10))) ].

Definition injection_benign : pyval :=
  VDict [ ("classification", VStr "benign"); ("score", VFloat zero) ].

Definition injection_hit (p : Q) : pyval :=
  VDict [ ("classification", VStr "prompt_injection");
          ("score", VFloat (FFin p)) ].

Definition rule_benign : pyval :=
  VDict [ ("classification", VStr "benign");
          ("rule_based_probability", VFloat zero) ].

(** A flagged classification without its score field. *)
Definition rule_hit_no_score : pyval :=
  VDict [ ("classification", VStr "manipulative_pattern") ].

Definition four (rb ml ec inj : res pyval) : firewall :=
  Firewall [ Detector "RuleBasedDetector" (always rb);
             Detector "MLBasedDetector" (always ml);
             Detector "EchoChamberDetector" (always ec);
             Detector "InjectionDetector" (always inj) ].

(** The rule-based detector trips, the others are quiet or inert. *)
Definition rule_trips : firewall :=
  four (Ok (rule_hit (7 # 8))) (Ok ml_hit) (Ok echo_benign)
       (Ok injection_benign).

(** Only the injection detector trips. *)
Definition injection_trips : firewall :=
  four (Ok rule_benign) (Ok ml_hit) (Ok echo_benign)
       (Ok (injection_hit (7 # 8))).

(** Every detector raises. *)
Definition all_fail : firewall :=
  four (Raise boom) (Raise boom) (Raise boom) (Raise boom).

(** The echo-chamber detector raises, the others are quiet. *)
Definition echo_fails : firewall :=
  four (Ok rule_benign) (Ok ml_hit) (Raise boom) (Ok injection_benign).

(** The rule-based detector flags without reporting a probability. *)
Definition rule_no_score : firewall :=
  four (Ok rule_hit_no_score) (Ok ml_hit) (Ok echo_benign)
       (Ok injection_benign).

Definition message : string := "You always twist my words".

(** The stored form of [ml_hit]. *)
Definition ml_neutral : pyval :=
  VDict [ ("classification", VStr "neutral_ml_placeholder");
          ("ml_model_confidence", VFloat (FFin 1)) ].

(** The result map of [rule_trips]. *)
Definition rule_trips_results : dict :=
  [ ("RuleBasedDetector", rule_hit (7 # 8));
    ("MLBasedDetector", ml_neutral);
    ("EchoChamberDetector", echo_benign);
    ("InjectionDetector", injection_benign) ].

(** The result map of [injection_trips]. *)
Definition injection_trips_results : dict :=
  [ ("RuleBasedDetector", rule_benign);
    ("MLBasedDetector", ml_neutral);
    ("EchoChamberDetector", echo_benign);
    ("InjectionDetector", injection_hit (7 # 8)) ].

End Samples.

(** The registered kinds whose entry can be flagged: the placeholder kind
    is left out. *)
Definition flagging_kinds : list string :=
  ["RuleBasedDetector"; "EchoChamberDetector"; "InjectionDetector"].

Definition no_flagged_record (l : list log_record) : Prop :=
  forallb (fun x => negb (is_flagged_record x)) l = true.

(** ** When the loop body raises

    [is_manipulative] has no [raise] of its own.  An exception can only
    come from [.lower()] on a classification that is not a string, from
    [>=] on a score that is not a number, or from [:.2f] on an int score
    that no float holds; the last two only for an entry that the keywords
    flag, and the last one only when the score reaches the threshold.
    [failure_kind] gives the class of the exception, if any. *)
Definition failure_kind (name : string) (r : dict) (threshold : pyfloat)
    : option string :=
  match get_default "classification" (VStr "unknown") r with
  | VStr s =>
      if flagged (policy_of name) (lower s) then
        match to_number (score (policy_of name) r) with
        | None => Some "TypeError"
        | Some x =>
            if float_ge x threshold
               && negb (formattable (score (policy_of name) r))
            then Some "OverflowError"
            else None
        end
      else None
  | _ => Some "AttributeError"
  end.

(** Detector stubs for the edge cases. *)
Module EdgeSamples.

(** A mapping whose classification is [None]. *)
Definition none_label : pyval := VDict [ ("classification", VNone) ].

(** The rule-based detector returns a classification that is no string. *)
Definition rule_none_label : firewall :=
  Samples.four (Ok none_label) (Ok Samples.ml_hit) (Ok Samples.echo_benign)
    (Ok Samples.injection_benign).

(** The ML detector returns [None], the others are quiet. *)
Definition ml_returns_none : firewall :=
  Samples.four (Ok Samples.rule_benign) (Ok VNone) (Ok Samples.echo_benign)
    (Ok Samples.injection_benign).

(** The injection detector returns a string instead of a mapping. *)
Definition injection_returns_str : firewall :=
  Samples.four (Ok Samples.rule_benign) (Ok Samples.ml_hit)
    (Ok Samples.echo_benign) (Ok (VStr "benign")).

(** Two detectors of the same class: the first trips, the second is
    quiet. *)
Definition twice_rule_based : firewall :=
  Firewall [ Detector "RuleBasedDetector"
               (Samples.always (Ok (Samples.rule_hit (7 # 8))));
             Detector "InjectionDetector"
               (Samples.always (Ok Samples.injection_benign));
             Detector "RuleBasedDetector"
               (Samples.always (Ok Samples.rule_benign)) ].

(** The largest float is [2^1024 - 2^971]; [2^1024] is an int that no
    float holds. *)
Definition huge : Z := (2 ^ 1024)%Z.

(** A flagged rule-based result whose probability is that int. *)
Definition rule_huge : pyval :=
  VDict [ ("classification", VStr "manipulative_pattern");
          ("rule_based_probability", VInt huge) ].

(** A flagged injection result whose score is that int. *)
Definition injection_huge : pyval :=
  VDict [ ("classification", VStr "prompt_injection");
          ("score", VInt huge) ].

(** The rule-based detector trips with that probability. *)
Definition rule_overflows : firewall :=
  Samples.four (Ok rule_huge) (Ok Samples.ml_hit) (Ok Samples.echo_benign)
    (Ok Samples.injection_benign).

Definition echo_detector_fails : detector :=
  Detector "EchoChamberDetector" (Samples.always (Raise Samples.boom)).

Definition ml_detector_hits : detector :=
  Detector "MLBasedDetector" (Samples.always (Ok Samples.ml_hit)).

Definition rule_detector_quiet : detector :=
  Detector "RuleBasedDetector" (Samples.always (Ok Samples.rule_benign)).

Definition injection_detector_hits : detector :=
  Detector "InjectionDetector"
    (Samples.always (Ok (Samples.injection_hit (7 # 8)))).

End EdgeSamples.

(** ** Basic facts *)

Section MonadFacts.
Context {A B : Type}.

Lemma bind_ok (l : list log_record) (a : A) (f : A -> M B) :
  bind (l, Ok a) f = (l ++ logs (f a), outcome (f a)).
Proof. unfold bind, logs, outcome. destruct (f a); reflexivity. Qed.

Lemma bind_raise (l : list log_record) (e : exn) (f : A -> M B) :
  bind (l, Raise e) f = (l, Raise e).
Proof. reflexivity. Qed.

Lemma M_eta (m : M A) : m = (logs m, outcome m).
Proof. destruct m; reflexivity. Qed.
End MonadFacts.

Section DictFacts.
Implicit Types (k : string) (v : pyval) (d : dict).

Lemma dict_get_set_same k v d : dict_get k (dict_set k v d) = Some v.
Proof.
  induction d as [|[k' v'] d IH]; simpl.
  - now rewrite String.eqb_refl.
  - destruct (k' =? k)%string eqn:E; simpl.
    + now rewrite String.eqb_refl.
    + now rewrite E.
Qed.

Lemma dict_get_set_other k k' v d :
  k <> k' -> dict_get k' (dict_set k v d) = dict_get k' d.
Proof.
  intros Hne. induction d as [|[k0 v0] d IH]; simpl.
  - destruct (k =? k')%string eqn:E; [|reflexivity].
    apply String.eqb_eq in E. contradiction.
  - destruct (k0 =? k)%string eqn:E; simpl.
    + apply String.eqb_eq in E. subst k0.
      destruct (k =? k')%string eqn:E'; [|reflexivity].
      apply String.eqb_eq in E'. contradiction.
    + now rewrite IH.
Qed.

Lemma keys_set_present k v d :
  In k (keys d) -> keys (dict_set k v d) = keys d.
Proof.
  unfold keys. induction d as [|[k0 v0] d IH]; simpl; [tauto|].
  intros [->|Hin].
  - now rewrite String.eqb_refl.
  - destruct (k0 =? k)%string eqn:E; simpl.
    + apply String.eqb_eq in E. now subst.
    + now rewrite IH.
Qed.

Lemma keys_set_fresh k v d :
  ~ In k (keys d) -> keys (dict_set k v d) = keys d ++ [k].
Proof.
  unfold keys. induction d as [|[k0 v0] d IH]; simpl; [reflexivity|].
  intros Hnin.
  destruct (k0 =? k)%string eqn:E.
  - apply String.eqb_eq in E. tauto.
  - simpl. rewrite IH; tauto.
Qed.

Lemma in_dict_set k v k' v' d :
  In (k', v') (dict_set k v d) -> (k' = k /\ v' = v) \/ In (k', v') d.
Proof.
  induction d as [|[k0 v0] d IH]; simpl.
  - intros [H|[]]. inversion H. auto.
  - destruct (k0 =? k)%string eqn:E; simpl.
    + intros [H|H]; [inversion H; auto | auto].
    + intros [H|H]; [auto | destruct (IH H); auto].
Qed.

Lemma in_dict_get k v d :
  NoDup (keys d) -> In (k, v) d -> dict_get k d = Some v.
Proof.
  induction d as [|[k0 v0] d IH]; simpl; [tauto|].
  intros Hnd [H|H].
  - inversion H; subst. now rewrite String.eqb_refl.
  - apply NoDup_cons_iff in Hnd. destruct Hnd as [Hnin Hnd].
    destruct (k0 =? k)%string eqn:E.
    + apply String.eqb_eq in E. subst k0.
      exfalso. apply Hnin. change k with (fst (k, v)). now apply in_map.
    + auto.
Qed.

Lemma dict_get_in k v d : dict_get k d = Some v -> In (k, v) d.
Proof.
  induction d as [|[k0 v0] d IH]; simpl; [discriminate|].
  destruct (k0 =? k)%string eqn:E.
  - apply String.eqb_eq in E. intros H; inversion H; subst. auto.
  - auto.
Qed.
End DictFacts.

(** ** [analyze_conversation] *)

Section AnalyzeFacts.
Variable msg : string.
Variable hist : option (list string).

Lemma analyze_one_eq (d : detector) (acc : dict) :
  analyze_one d msg hist acc
  = (failure_log d msg hist,
     Ok (dict_set (class_name d) (stored_entry d msg hist) acc)).
Proof.
  unfold analyze_one, stored_entry, failure_log.
  destruct (analyze_text d msg hist) as [v|e]; simpl; [|reflexivity].
  destruct (class_name d =? "MLBasedDetector")%string; simpl;
    [|reflexivity].
  destruct v; reflexivity.
Qed.

Lemma analyze_loop_eq (ds : list detector) (acc : dict) :
  analyze_loop ds msg hist acc
  = (flat_map (fun d => failure_log d msg hist) ds,
     Ok (store_all ds msg hist acc)).
Proof.
  revert acc. induction ds as [|d ds IH]; intros acc; simpl.
  - reflexivity.
  - rewrite analyze_one_eq, bind_ok, IH. reflexivity.
Qed.

Lemma analyze_conversation_eq (self : firewall) :
  analyze_conversation self msg hist
  = (flat_map (fun d => failure_log d msg hist) (detectors self),
     Ok (store_all (detectors self) msg hist [])).
Proof. apply analyze_loop_eq. Qed.

Lemma store_all_cons (d : detector) (ds : list detector) (acc : dict) :
  store_all (d :: ds) msg hist acc
  = store_all ds msg hist
      (dict_set (class_name d) (stored_entry d msg hist) acc).
Proof. reflexivity. Qed.

Lemma store_all_keys (ds : list detector) (acc : dict) :
  NoDup (map class_name ds) ->
  (forall d, In d ds -> ~ In (class_name d) (keys acc)) ->
  keys (store_all ds msg hist acc) = keys acc ++ map class_name ds.
Proof.
  revert acc. induction ds as [|d ds IH]; intros acc Hnd Hfresh.
  - simpl. now rewrite app_nil_r.
  - apply NoDup_cons_iff in Hnd. destruct Hnd as [Hnin Hnd].
    assert (Hd : ~ In (class_name d) (keys acc))
      by (apply Hfresh; now left).
    rewrite store_all_cons, IH; auto.
    + rewrite keys_set_fresh by assumption.
      now rewrite <- app_assoc.
    + intros d' Hd'. rewrite keys_set_fresh by assumption.
      intros Hin. apply in_app_or in Hin. destruct Hin as [Hin|[Heq|[]]].
      * apply (Hfresh d'); [now right|assumption].
      * apply Hnin. rewrite Heq. now apply in_map.
Qed.

Lemma store_all_get_other (k : string) (ds : list detector) (acc : dict) :
  ~ In k (map class_name ds) ->
  dict_get k (store_all ds msg hist acc) = dict_get k acc.
Proof.
  revert acc. induction ds as [|d ds IH]; intros acc Hnin.
  - reflexivity.
  - simpl in Hnin. rewrite store_all_cons, IH by tauto.
    apply dict_get_set_other. tauto.
Qed.

Lemma store_all_get (d : detector) (ds : list detector) (acc : dict) :
  NoDup (map class_name ds) -> In d ds ->
  dict_get (class_name d) (store_all ds msg hist acc)
  = Some (stored_entry d msg hist).
Proof.
  revert acc. induction ds as [|d0 ds IH]; intros acc Hnd Hin.
  - destruct Hin.
  - apply NoDup_cons_iff in Hnd. destruct Hnd as [Hnin Hnd].
    rewrite store_all_cons.
    destruct Hin as [->|Hin].
    + rewrite store_all_get_other by assumption.
      apply dict_get_set_same.
    + now apply IH.
Qed.

Lemma store_all_in (k : string) (v : pyval) (ds : list detector)
    (acc : dict) :
  In (k, v) (store_all ds msg hist acc) ->
  In (k, v) acc
  \/ exists d, In d ds /\ k = class_name d /\ v = stored_entry d msg hist.
Proof.
  revert acc. induction ds as [|d ds IH]; intros acc Hin.
  - now left.
  - rewrite store_all_cons in Hin.
    apply IH in Hin. destruct Hin as [Hin|(d' & Hd' & Hk & Hv)].
    + apply in_dict_set in Hin. destruct Hin as [[-> ->]|Hin].
      * right. exists d. simpl. auto.
      * now left.
    + right. exists d'. simpl. auto.
Qed.

Lemma dict_set_nodup (k : string) (v : pyval) (d : dict) :
  NoDup (keys d) -> NoDup (keys (dict_set k v d)).
Proof.
  intros Hnd. destruct (in_dec string_dec k (keys d)) as [Hin|Hnin].
  - now rewrite keys_set_present.
  - rewrite keys_set_fresh by assumption.
    apply NoDup_app; [assumption | repeat constructor; tauto |].
    intros x Hx [<-|[]]. contradiction.
Qed.

Lemma store_all_nodup (ds : list detector) (acc : dict) :
  NoDup (keys acc) -> NoDup (keys (store_all ds msg hist acc)).
Proof.
  revert acc. induction ds as [|d ds IH]; intros acc Hnd.
  - assumption.
  - rewrite store_all_cons. apply IH. now apply dict_set_nodup.
Qed.
End AnalyzeFacts.

(** ** The decision loop *)

Section DecideFacts.
Variable threshold : pyfloat.

Ltac same_policy r :=
  rewrite ?andb_true_r, ?orb_false_r, ?orb_assoc;
  repeat match goal with
         | |- context [dict_get ?k r] => destruct (dict_get k r)
         end;
  reflexivity.

(** The conditionals of lines 112-145 compute the table's policy. *)
Lemma normalize_eq (name label : string) (r : dict) :
  normalize name label r
  = (unhandled_log name,
     Ok (flagged (policy_of name) label, score (policy_of name) r)).
Proof.
  unfold normalize, unhandled_log, registered_kind, policy_of, flagged,
    score, rule_matches, get_default.
  simpl.
  destruct (name =? "RuleBasedDetector")%string; simpl;
    [same_policy r|].
  destruct (name =? "MLBasedDetector")%string; simpl;
    [same_policy r|].
  destruct (name =? "EchoChamberDetector")%string; simpl;
    [same_policy r|].
  destruct (name =? "InjectionDetector")%string; simpl;
    [same_policy r|].
  same_policy r.
Qed.

(** The failure label matches the keywords of no kind. *)
Lemma failure_label_not_flagged (name : string) :
  flagged (policy_of name) (lower "error_detector_failed") = false.
Proof.
  unfold policy_of. simpl.
  repeat match goal with
         | |- context [(name =? ?k)%string] =>
             destruct (name =? k)%string; simpl; [reflexivity|]
         end.
  reflexivity.
Qed.

Lemma errored_label (r : dict) :
  errored r = true -> label r = Some (lower "error_detector_failed").
Proof.
  unfold errored, label, get, get_default, py_eq_str.
  destruct (dict_get "classification" r) as [[]|]; try discriminate.
  intros H. apply String.eqb_eq in H. now subst.
Qed.

(** A number formats unless it is an int beyond the floats. *)
Lemma py_format_number (v : pyval) (x : pyfloat) :
  to_number v = Some x ->
  py_format_2f v
  = if formattable v then Ok tt
    else Raise (OverflowError "int too large to convert to float").
Proof.
  destruct v; try discriminate; intros _; try reflexivity.
  cbn. now destruct (float_overflows z).
Qed.

(** The loop body, case by case. *)
Lemma check_entry_dict (name : string) (r : dict) :
  check_entry name (VDict r) threshold
  = if dict_contains "error" r && errored r then
      ([LogSkipErrored name (get "error" r)], Ok None)
    else
      match get_default "classification" (VStr "unknown") r with
      | VStr s =>
          if flagged (policy_of name) (lower s) then
            match to_number (score (policy_of name) r) with
            | Some x =>
                if float_ge x threshold then
                  if formattable (score (policy_of name) r) then
                    (unhandled_log name
                       ++ [LogFlagged name
                             (get_default "classification" (VStr "N/A") r)
                             (score (policy_of name) r) threshold],
                     Ok (Some true))
                  else
                    (unhandled_log name,
                     Raise (OverflowError
                              "int too large to convert to float"))
                else (unhandled_log name, Ok None)
            | None =>
                (unhandled_log name,
                 Raise (TypeError
                          ("'>=' not supported between instances of '"
                             ++ type_name (score (policy_of name) r)
                             ++ "' and 'float'")))
            end
          else (unhandled_log name, Ok None)
      | other =>
          ([], Raise (AttributeError
                        ("'" ++ type_name other
                             ++ "' object has no attribute 'lower'")))
      end.
Proof.
  unfold check_entry. fold (errored r).
  destruct (dict_contains "error" r && errored r); [reflexivity|].
  destruct (get_default "classification" (VStr "unknown") r) eqn:Hc;
    try reflexivity.
  unfold lift. cbn [py_lower]. rewrite bind_ok, normalize_eq.
  rewrite bind_ok. cbn [app logs outcome fst snd].
  destruct (flagged (policy_of name) (lower s));
    [|now rewrite !app_nil_r].
  unfold py_ge.
  destruct (to_number (score (policy_of name) r)) as [x|] eqn:Hn;
    [|now rewrite ?app_nil_r].
  rewrite bind_ok.
  destruct (float_ge x threshold); [|cbn; now rewrite ?app_nil_r].
  rewrite (py_format_number _ _ Hn).
  destruct (formattable (score (policy_of name) r)); cbn;
    now rewrite ?app_nil_r.
Qed.

Lemma check_entry_other (name : string) (v : pyval) :
  (forall r, v <> VDict r) ->
  check_entry name v threshold
  = ([LogUnexpectedType name (type_name v)], Ok None).
Proof. intros H. destruct v; try reflexivity. now elim (H d). Qed.
End DecideFacts.

Section EntryFacts.
Variable threshold : pyfloat.

Lemma triggers_qualifies (name : string) (v : pyval) :
  triggers name v threshold = true -> qualifies name v threshold = true.
Proof. unfold triggers. intros H. now apply andb_prop in H. Qed.

Lemma triggers_check_entry (name : string) (r : dict) :
  triggers name (VDict r) threshold = true ->
  check_entry name (VDict r) threshold
  = (unhandled_log name ++ [flagged_record name r threshold],
     Ok (Some true)).
Proof.
  unfold triggers, qualifies, label. intros H.
  apply andb_prop in H. destruct H as [H Hfmt].
  apply andb_prop in H. destruct H as [H Hs].
  apply andb_prop in H. destruct H as [He Hl].
  apply negb_true_iff in He.
  rewrite check_entry_dict, He, andb_false_r.
  destruct (get_default "classification" (VStr "unknown") r);
    try discriminate.
  rewrite Hl.
  destruct (to_number (score (policy_of name) r)); [|discriminate].
  now rewrite Hs, Hfmt.
Qed.

(** Whatever its kind, an entry labelled as failed lets the loop go on. *)
Lemma errored_check_entry (name : string) (r : dict) :
  errored r = true ->
  outcome (check_entry name (VDict r) threshold) = Ok None.
Proof.
  intros He. rewrite check_entry_dict, He, andb_true_r.
  destruct (dict_contains "error" r); [reflexivity|].
  pose proof (errored_label r He) as Hl. unfold label in Hl.
  destruct (get_default "classification" (VStr "unknown") r);
    try discriminate.
  injection Hl as Hl. now rewrite Hl, failure_label_not_flagged.
Qed.

Lemma check_entry_true_triggers (name : string) (v : pyval) :
  outcome (check_entry name v threshold) = Ok (Some true) ->
  exists r, v = VDict r /\ triggers name v threshold = true.
Proof.
  destruct v as [| | | | |r]; try discriminate.
  intros H. exists r. split; [reflexivity|].
  destruct (errored r) eqn:He.
  { rewrite errored_check_entry in H by assumption. discriminate. }
  rewrite check_entry_dict, He, andb_false_r in H.
  unfold triggers, qualifies, label. rewrite He.
  destruct (get_default "classification" (VStr "unknown") r) as [| | | |s|];
    try discriminate.
  destruct (flagged (policy_of name) (lower s)); [|discriminate].
  destruct (to_number (score (policy_of name) r)) as [x|]; [|discriminate].
  destruct (float_ge x threshold); [|discriminate].
  now destruct (formattable (score (policy_of name) r)).
Qed.

Lemma check_entry_true_qualifies (name : string) (v : pyval) :
  outcome (check_entry name v threshold) = Ok (Some true) ->
  exists r, v = VDict r /\ qualifies name v threshold = true.
Proof.
  intros H. destruct (check_entry_true_triggers name v H) as (r & Hv & Ht).
  exists r. split; [assumption|]. now apply triggers_qualifies.
Qed.

(** The loop body returns [True] exactly on an entry that qualifies and
    whose score can be written in the message. *)
Lemma check_entry_true_iff (name : string) (v : pyval) :
  outcome (check_entry name v threshold) = Ok (Some true)
  <-> triggers name v threshold = true.
Proof.
  split.
  - intros H.
    now destruct (check_entry_true_triggers name v H) as (r & _ & Hq).
  - intros H. destruct v; try discriminate.
    now rewrite triggers_check_entry.
Qed.

(** The loop body never executes a [return False]. *)
Lemma check_entry_never_false (name : string) (v : pyval) :
  outcome (check_entry name v threshold) <> Ok (Some false).
Proof.
  destruct v as [| | | | |r]; try discriminate.
  rewrite check_entry_dict.
  destruct (dict_contains "error" r && errored r); [discriminate|].
  destruct (get_default "classification" (VStr "unknown") r);
    try discriminate.
  destruct (flagged (policy_of name) (lower s)); [|discriminate].
  destruct (to_number (score (policy_of name) r)) as [x|]; [|discriminate].
  destruct (float_ge x threshold); [|discriminate].
  destruct (formattable (score (policy_of name) r)); discriminate.
Qed.

(** On a well-formed entry the loop body raises in one case only: the
    entry qualifies and its score is an int beyond the floats. *)
Lemma well_formed_check_entry (name : string) (v : pyval) :
  well_formed name v = true ->
  outcome (check_entry name v threshold)
  = if qualifies name v threshold then
      if triggers name v threshold then Ok (Some true)
      else Raise (OverflowError "int too large to convert to float")
    else Ok None.
Proof.
  intros Hwf. destruct (triggers name v threshold) eqn:Ht.
  - rewrite (triggers_qualifies _ _ Ht). now apply check_entry_true_iff.
  - destruct v as [| | | | |r]; try reflexivity.
    destruct (errored r) eqn:He.
    { rewrite errored_check_entry by assumption.
      unfold qualifies. now rewrite He. }
    rewrite check_entry_dict, He, andb_false_r.
    unfold well_formed, triggers, qualifies, label in Hwf, Ht |- *.
    rewrite He in Ht |- *.
    destruct (get_default "classification" (VStr "unknown") r) as [| | | |s|];
      try discriminate.
    destruct (flagged (policy_of name) (lower s)); [|reflexivity].
    destruct (to_number (score (policy_of name) r)) as [x|]; [|discriminate].
    cbn in Ht |- *. destruct (float_ge x threshold); [|reflexivity].
    cbn in Ht. now rewrite Ht.
Qed.

(** The loop body writes the "flagged" record only to return [True], and
    then as its last record, naming the entry at hand. *)
Lemma check_entry_log (name : string) (v : pyval) :
  (triggers name v threshold = true /\
     exists r, v = VDict r /\
       logs (check_entry name v threshold)
       = unhandled_log name ++ [flagged_record name r threshold])
  \/ (triggers name v threshold = false /\
        forallb (fun x => negb (is_flagged_record x))
          (logs (check_entry name v threshold)) = true).
Proof.
  destruct (triggers name v threshold) eqn:Hq.
  - left. split; [reflexivity|]. destruct v; try discriminate.
    exists d. now rewrite triggers_check_entry.
  - right. split; [reflexivity|].
    assert (Hu : forallb (fun x => negb (is_flagged_record x))
                   (unhandled_log name) = true)
      by (unfold unhandled_log; now destruct (registered_kind name)).
    destruct v as [| | | | |r]; try reflexivity.
    assert (Hne : outcome (check_entry name (VDict r) threshold)
                  <> Ok (Some true)).
    { intros H. apply check_entry_true_iff in H. congruence. }
    rewrite check_entry_dict in Hne |- *.
    destruct (dict_contains "error" r && errored r); [reflexivity|].
    destruct (get_default "classification" (VStr "unknown") r) as [| | | |s|];
      try reflexivity.
    destruct (flagged (policy_of name) (lower s)); [|exact Hu].
    destruct (to_number (score (policy_of name) r)) as [x|]; [|exact Hu].
    destruct (float_ge x threshold); [|exact Hu].
    destruct (formattable (score (policy_of name) r)); [|exact Hu].
    now elim Hne.
Qed.
End EntryFacts.

Section LoopFacts.
Variable threshold : pyfloat.

Lemma decide_cons (name : string) (v : pyval) (rest : dict) :
  decide ((name, v) :: rest) threshold
  = match outcome (check_entry name v threshold) with
    | Ok (Some b) => (logs (check_entry name v threshold), Ok b)
    | Ok None =>
        (logs (check_entry name v threshold) ++ logs (decide rest threshold),
         outcome (decide rest threshold))
    | Raise e => (logs (check_entry name v threshold), Raise e)
    end.
Proof.
  cbn [decide]. destruct (check_entry name v threshold) as [l [[b|]|e]];
    cbn [bind logs outcome fst snd ret]; try reflexivity.
  - now rewrite app_nil_r.
  - now destruct (decide rest threshold).
Qed.

(** Entries that do not qualify and do not raise are walked over. *)
Lemma decide_skip (pre rest : dict) :
  (forall name v, In (name, v) pre ->
                  outcome (check_entry name v threshold) = Ok None) ->
  decide (pre ++ rest) threshold
  = (scan_log pre threshold ++ logs (decide rest threshold),
     outcome (decide rest threshold)).
Proof.
  induction pre as [|[n v] pre IH]; intros Hpre.
  - simpl. apply M_eta.
  - rewrite <- app_comm_cons, decide_cons, (Hpre n v) by now left.
    rewrite IH by (intros; apply Hpre; now right).
    cbn [logs outcome fst snd scan_log flat_map].
    now rewrite app_assoc.
Qed.

(** First match wins: nothing after the first qualifying entry is looked
    at. *)
Lemma decide_first_match (pre post : dict) (name : string) (r : dict) :
  (forall n v, In (n, v) pre ->
               outcome (check_entry n v threshold) = Ok None) ->
  triggers name (VDict r) threshold = true ->
  decide (pre ++ (name, VDict r) :: post) threshold
  = (scan_log pre threshold
       ++ unhandled_log name ++ [flagged_record name r threshold],
     Ok true).
Proof.
  intros Hpre Hq. rewrite decide_skip by assumption.
  rewrite decide_cons, triggers_check_entry by assumption.
  reflexivity.
Qed.

Lemma decide_no_match (results : dict) :
  (forall name v, In (name, v) results ->
                  outcome (check_entry name v threshold) = Ok None) ->
  decide results threshold = (scan_log results threshold, Ok false).
Proof.
  intros H. rewrite <- (app_nil_r results) at 1.
  rewrite decide_skip by assumption. simpl. now rewrite app_nil_r.
Qed.

Lemma decide_true_inv (results : dict) :
  outcome (decide results threshold) = Ok true ->
  exists pre name r post,
    results = pre ++ (name, VDict r) :: post
    /\ (forall n v, In (n, v) pre ->
                    outcome (check_entry n v threshold) = Ok None)
    /\ triggers name (VDict r) threshold = true.
Proof.
  induction results as [|[n v] rest IH]; [discriminate|].
  rewrite decide_cons.
  destruct (outcome (check_entry n v threshold)) as [[b|]|e] eqn:Hc;
    cbn [outcome snd]; [| |discriminate].
  - intros Hb. injection Hb as ->.
    destruct (check_entry_true_triggers _ n v Hc) as (r & -> & Hq).
    exists [], n, r, rest. repeat split; [|assumption].
    intros ? ? [].
  - intros H. destruct (IH H) as (pre & name & r & post & -> & Hpre & Hq).
    exists ((n, v) :: pre), name, r, post. repeat split; [|assumption].
    intros n' v' [Heq|Hin]; [now inversion Heq; subst | now apply Hpre].
Qed.

Lemma decide_false_inv (results : dict) :
  outcome (decide results threshold) = Ok false ->
  forall name v, In (name, v) results ->
                 outcome (check_entry name v threshold) = Ok None.
Proof.
  induction results as [|[n v] rest IH]; [intros _ ? ? []|].
  rewrite decide_cons.
  destruct (outcome (check_entry n v threshold)) as [[b|]|e] eqn:Hc;
    cbn [outcome snd]; [| |discriminate].
  - intros Hb. injection Hb as ->.
    now elim (check_entry_never_false threshold n v).
  - intros H name v' [Heq|Hin]; [now inversion Heq; subst | now apply IH].
Qed.

(** A list with a qualifying entry splits at its first one. *)
Lemma first_qualifying (results : dict) (name : string) (v : pyval) :
  In (name, v) results -> qualifies name v threshold = true ->
  exists pre n r post,
    results = pre ++ (n, VDict r) :: post
    /\ none_qualifies pre threshold
    /\ qualifies n (VDict r) threshold = true.
Proof.
  induction results as [|[n0 v0] rest IH]; [intros []|].
  intros Hin Hq.
  destruct (qualifies n0 v0 threshold) eqn:Hq0.
  - destruct v0 as [| | | | |r0]; try discriminate.
    exists [], n0, r0, rest. repeat split; [|assumption].
    intros ? ? [].
  - destruct Hin as [Heq|Hin]; [inversion Heq; subst; congruence|].
    destruct (IH Hin Hq) as (pre & n & r & post & -> & Hpre & Hq').
    exists ((n0, v0) :: pre), n, r, post. repeat split; [|assumption].
    intros n' v' [Heq|Hin']; [now inversion Heq; subst | now apply Hpre].
Qed.

(** On well-formed results, not qualifying means being walked over. *)
Lemma well_formed_skip (results : dict) :
  well_formed_results results -> none_qualifies results threshold ->
  forall name v, In (name, v) results ->
                 outcome (check_entry name v threshold) = Ok None.
Proof.
  intros Hwf Hnone name v Hin.
  rewrite well_formed_check_entry.
  - now rewrite (Hnone name v Hin).
  - unfold well_formed_results in Hwf. rewrite Forall_forall in Hwf.
    exact (Hwf (name, v) Hin).
Qed.

Lemma well_formed_app (pre post : dict) :
  well_formed_results (pre ++ post) ->
  well_formed_results pre /\ well_formed_results post.
Proof. unfold well_formed_results. apply Forall_app. Qed.
End LoopFacts.

(** ** Construction and the placeholder detector *)

Ltac by_kind name :=
  repeat match goal with
         | |- context [(name =? ?k)%string] =>
             destruct (name =? k)%string; cbn; try reflexivity
         end.

Lemma init_ok_inv (c1 c2 c3 c4 : res analyze_fn) (self : firewall) :
  outcome (init c1 c2 c3 c4) = Ok self ->
  exists rb ml ec inj,
    self = Firewall [ Detector "RuleBasedDetector" rb;
                      Detector "MLBasedDetector" ml;
                      Detector "EchoChamberDetector" ec;
                      Detector "InjectionDetector" inj ].
Proof.
  destruct c1 as [rb|], c2 as [ml|], c3 as [ec|], c4 as [inj|];
    cbn; try discriminate.
  intros H. injection H as <-. now exists rb, ml, ec, inj.
Qed.

Lemma init_names (c1 c2 c3 c4 : res analyze_fn) (self : firewall) :
  outcome (init c1 c2 c3 c4) = Ok self -> names self = registered_kinds.
Proof.
  intros H. destruct (init_ok_inv _ _ _ _ _ H) as (rb & ml & ec & inj & ->).
  reflexivity.
Qed.

Lemma registered_kinds_nodup : NoDup registered_kinds.
Proof.
  unfold registered_kinds. cbn.
  repeat (apply NoDup_cons; [cbn; intuition discriminate|]).
  apply NoDup_nil.
Qed.

(** The firewall that [__init__] builds answers with the four registered
    names, in registration order. *)
Lemma init_firewall_keys (c1 c2 c3 c4 : res analyze_fn) (self : firewall)
    (msg : string) (hist : option (list string)) :
  outcome (init c1 c2 c3 c4) = Ok self ->
  keys (store_all (detectors self) msg hist []) = registered_kinds.
Proof.
  intros H. rewrite store_all_keys.
  - apply (init_names _ _ _ _ _ H).
  - fold (names self). rewrite (init_names _ _ _ _ _ H).
    apply registered_kinds_nodup.
  - intros d _ [].
Qed.

Section PlaceholderFacts.
Variable msg : string.
Variable hist : option (list string).

Lemma ml_stored_entry (d : detector) :
  class_name d = "MLBasedDetector" -> neutralised (stored_entry d msg hist).
Proof.
  intros Hname. unfold stored_entry. rewrite Hname. cbn.
  destruct (analyze_text d msg hist) as [v|e].
  - destruct v; try (right; eexists; reflexivity).
    left. eexists. split; [reflexivity|]. apply dict_get_set_same.
  - right. now exists e.
Qed.

Lemma ml_entries_neutralised (ds : list detector) (v : pyval) :
  In ("MLBasedDetector", v) (store_all ds msg hist []) -> neutralised v.
Proof.
  intros Hin. apply store_all_in in Hin.
  destruct Hin as [[]|(d & _ & Hname & ->)].
  now apply ml_stored_entry.
Qed.

Lemma placeholder_errored (e : exn) (name : string) (t : pyfloat) :
  check_entry name (error_placeholder e) t
  = ([LogSkipErrored name (VStr (str_of_exn e))], Ok None).
Proof. reflexivity. Qed.

Lemma neutralised_walked_over (v : pyval) (t : pyfloat) :
  neutralised v ->
  outcome (check_entry "MLBasedDetector" v t) = Ok None
  /\ qualifies "MLBasedDetector" v t = false.
Proof.
  intros [(r & -> & Hc)|(e & ->)].
  - assert (He : errored r = false).
    { unfold errored, get. now rewrite Hc. }
    split.
    + rewrite check_entry_dict, He, andb_false_r.
      unfold get_default. now rewrite Hc.
    + unfold qualifies, label, get_default. now rewrite He, Hc.
  - split; reflexivity.
Qed.

End PlaceholderFacts.

Lemma is_manipulative_eq (self : firewall) (msg : string)
    (hist : option (list string)) (t : pyfloat) :
  is_manipulative self msg hist t
  = (flat_map (fun d => failure_log d msg hist) (detectors self)
       ++ logs (decide (store_all (detectors self) msg hist []) t),
     outcome (decide (store_all (detectors self) msg hist []) t)).
Proof.
  unfold is_manipulative. now rewrite analyze_conversation_eq, bind_ok.
Qed.

Lemma failure_log_not_flagged (msg : string) (hist : option (list string))
    (ds : list detector) :
  forallb (fun x => negb (is_flagged_record x))
    (flat_map (fun d => failure_log d msg hist) ds) = true.
Proof.
  induction ds as [|d ds IH]; [reflexivity|].
  cbn [flat_map]. rewrite forallb_app, IH, andb_true_r.
  unfold failure_log.
  destruct (analyze_text d msg hist) as [v|e]; [|reflexivity].
  destruct (class_name d =? "MLBasedDetector")%string; [|reflexivity].
  now destruct v.
Qed.

Lemma scan_log_not_flagged (results : dict) (t : pyfloat) :
  none_qualifies results t ->
  forallb (fun x => negb (is_flagged_record x)) (scan_log results t) = true.
Proof.
  induction results as [|[n v] rest IH]; intros Hnone; [reflexivity|].
  cbn [scan_log flat_map fst snd]. rewrite forallb_app.
  apply andb_true_intro. split.
  - destruct (check_entry_log t n v) as [[Hq _]|[_ Hl]]; [|exact Hl].
    apply triggers_qualifies in Hq.
    rewrite (Hnone n v) in Hq by now left. discriminate.
  - apply IH. intros n' v' Hin. apply Hnone. now right.
Qed.

Lemma no_flagged_record_in (l : list log_record) (x : log_record) :
  no_flagged_record l -> In x l -> is_flagged_record x = false.
Proof.
  unfold no_flagged_record. rewrite forallb_forall. intros H Hin.
  apply negb_true_iff. now apply H.
Qed.

Lemma no_flagged_record_app (l1 l2 : list log_record) :
  no_flagged_record l1 -> no_flagged_record l2 -> no_flagged_record (l1 ++ l2).
Proof.
  unfold no_flagged_record. intros H1 H2. now rewrite forallb_app, H1, H2.
Qed.

Lemma unhandled_log_not_flagged (name : string) :
  no_flagged_record (unhandled_log name).
Proof. unfold unhandled_log. now destruct (registered_kind name). Qed.

(** A "flagged" record in the log of the loop comes from a qualifying
    entry and names it. *)
Lemma decide_flagged_record (results : dict) (t : pyfloat) (x : log_record) :
  In x (logs (decide results t)) -> is_flagged_record x = true ->
  exists name r,
    In (name, VDict r) results
    /\ qualifies name (VDict r) t = true
    /\ x = flagged_record name r t.
Proof.
  induction results as [|[n v] rest IH]; [intros []|].
  intros Hin Hx.
  assert (Hhere : In x (logs (check_entry n v t)) ->
                  exists name r,
                    In (name, VDict r) ((n, v) :: rest)
                    /\ qualifies name (VDict r) t = true
                    /\ x = flagged_record name r t).
  { intros Hl.
    destruct (check_entry_log t n v) as [[Hq (r & -> & Hlog)]|[_ Hno]].
    - rewrite Hlog in Hl. apply in_app_or in Hl.
      destruct Hl as [Hl|[<-|[]]].
      + rewrite (no_flagged_record_in _ _ (unhandled_log_not_flagged n) Hl)
          in Hx. discriminate.
      + exists n, r. repeat split; [now left|].
        now apply triggers_qualifies.
    - rewrite (no_flagged_record_in _ _ Hno Hl) in Hx. discriminate. }
  rewrite decide_cons in Hin.
  destruct (outcome (check_entry n v t)) as [[b|]|e]; cbn [logs fst] in Hin;
    try (now apply Hhere).
  apply in_app_or in Hin. destruct Hin as [Hin|Hin]; [now apply Hhere|].
  destruct (IH Hin Hx) as (name & r & Hr & Hq & ->).
  exists name, r. repeat split; [now right|assumption].
Qed.

Lemma analyze_conversation_results (self : firewall) (msg : string)
    (hist : option (list string)) (results : dict) :
  outcome (analyze_conversation self msg hist) = Ok results ->
  results = store_all (detectors self) msg hist [].
Proof. rewrite analyze_conversation_eq. intros H. now injection H. Qed.

(** ** More facts on the stored map *)

Section StoreFacts.
Variable msg : string.
Variable hist : option (list string).

Lemma dict_set_fresh (k : string) (v : pyval) (d : dict) :
  ~ In k (keys d) -> dict_set k v d = d ++ [(k, v)].
Proof.
  unfold keys. induction d as [|[k0 v0] d IH]; cbn; [reflexivity|].
  intros Hnin. destruct (k0 =? k)%string eqn:E.
  - apply String.eqb_eq in E. tauto.
  - rewrite IH; tauto.
Qed.

Lemma store_all_app (ds1 ds2 : list detector) (acc : dict) :
  store_all (ds1 ++ ds2) msg hist acc
  = store_all ds2 msg hist (store_all ds1 msg hist acc).
Proof. apply fold_left_app. Qed.

(** With distinct names the map lists the detectors' entries in order. *)
Lemma store_all_distinct (ds : list detector) (acc : dict) :
  NoDup (keys acc ++ map class_name ds) ->
  store_all ds msg hist acc
  = acc ++ map (fun d => (class_name d, stored_entry d msg hist)) ds.
Proof.
  revert acc. induction ds as [|d ds IH]; intros acc Hnd.
  - cbn. now rewrite app_nil_r.
  - cbn [map] in *. rewrite store_all_cons.
    assert (Hfresh : ~ In (class_name d) (keys acc)).
    { apply NoDup_remove_2 in Hnd. intros Hin. apply Hnd.
      apply in_or_app. now left. }
    rewrite dict_set_fresh by assumption.
    rewrite IH.
    + now rewrite <- app_assoc.
    + unfold keys. rewrite map_app. cbn. now rewrite <- app_assoc.
Qed.

Lemma store_all_key_iff (k : string) (ds : list detector) (acc : dict) :
  In k (keys (store_all ds msg hist acc))
  <-> In k (keys acc) \/ In k (map class_name ds).
Proof.
  revert acc. induction ds as [|d ds IH]; intros acc.
  - cbn. tauto.
  - rewrite store_all_cons, IH. cbn [map In].
    destruct (in_dec string_dec (class_name d) (keys acc)) as [Hin|Hnin].
    + rewrite keys_set_present by assumption.
      split; [tauto|]. intros [H|[<-|H]]; tauto.
    + rewrite keys_set_fresh by assumption. rewrite in_app_iff. cbn.
      tauto.
Qed.

Lemma store_all_length (ds : list detector) (acc : dict) :
  (List.length (store_all ds msg hist acc)
   <= List.length acc + List.length ds)%nat.
Proof.
  revert acc. induction ds as [|d ds IH]; intros acc.
  - cbn. lia.
  - rewrite store_all_cons. specialize (IH (dict_set (class_name d)
                                              (stored_entry d msg hist) acc)).
    assert (Hs : (List.length (dict_set (class_name d)
                                 (stored_entry d msg hist) acc)
                  <= S (List.length acc))%nat).
    { rewrite <- !(length_map fst).
      fold (keys acc)
           (keys (dict_set (class_name d) (stored_entry d msg hist) acc)).
      destruct (in_dec string_dec (class_name d) (keys acc)).
      - rewrite keys_set_present by assumption. lia.
      - rewrite keys_set_fresh, length_app by assumption. cbn. lia. }
    cbn [List.length]. lia.
Qed.

(** The entry under a name is that of the last detector of that name. *)
Lemma store_all_last (ds1 ds2 : list detector) (d : detector) (acc : dict) :
  ~ In (class_name d) (map class_name ds2) ->
  dict_get (class_name d) (store_all (ds1 ++ d :: ds2) msg hist acc)
  = Some (stored_entry d msg hist).
Proof.
  intros Hnin. rewrite store_all_app, store_all_cons.
  rewrite store_all_get_other by assumption.
  apply dict_get_set_same.
Qed.
End StoreFacts.

(** An entry the loop walks over can be left out. *)
Lemma decide_drop (pre post : dict) (name : string) (v : pyval)
    (t : pyfloat) :
  outcome (check_entry name v t) = Ok None ->
  outcome (decide (pre ++ (name, v) :: post) t)
  = outcome (decide (pre ++ post) t).
Proof.
  intros Hn. induction pre as [|[n0 v0] pre IH].
  - cbn [app]. now rewrite decide_cons, Hn.
  - rewrite <- !app_comm_cons, !decide_cons.
    destruct (outcome (check_entry n0 v0 t)) as [[b|]|e]; try reflexivity.
    exact IH.
Qed.

(** ** A detector the loop walks over *)

Section Isolation.
Variable msg : string.
Variable hist : option (list string).
Variable threshold : pyfloat.

(** A detector whose stored entry the loop walks over can be taken out of
    the firewall without changing the verdict. *)
Lemma walked_over_as_if_absent (before after : list detector)
    (d : detector) :
  NoDup (map class_name (before ++ d :: after)) ->
  outcome (check_entry (class_name d) (stored_entry d msg hist) threshold)
  = Ok None ->
  outcome (is_manipulative (Firewall (before ++ d :: after)) msg hist
             threshold)
  = outcome (is_manipulative (Firewall (before ++ after)) msg hist threshold).
Proof.
  intros Hnd Hn. rewrite !is_manipulative_eq. cbn [outcome snd detectors].
  assert (Hnd' : NoDup (map class_name (before ++ after))).
  { rewrite map_app in *. cbn [map] in Hnd. now apply NoDup_remove_1 in Hnd. }
  rewrite !store_all_distinct by assumption. cbn [app].
  rewrite !map_app. cbn [map]. now apply decide_drop.
Qed.
End Isolation.

(** * The properties *)

Ltac nodup_names :=
  cbn; repeat (apply NoDup_cons; [cbn; intuition discriminate|]);
  apply NoDup_nil.

(** ** Orchestration *)

(** C2. For every message and history, whatever the detectors do (return
    or raise), [analyze_conversation] returns a mapping whose keys are
    exactly the class names of the registered detectors, in registration
    order: one entry per detector, no more and no fewer.  Class names are
    the identifiers, so they are taken distinct, as [__init__] makes
    them. *)
Theorem analyze_conversation_one_entry_per_detector
    (self : firewall) (msg : string) (hist : option (list string)) :
  NoDup (names self) ->
  exists all_results,
    outcome (analyze_conversation self msg hist) = Ok all_results
    /\ keys all_results = names self
    /\ NoDup (keys all_results)
    /\ List.length all_results = List.length (detectors self).
Proof.
  intros Hnd. rewrite analyze_conversation_eq.
  eexists. split; [reflexivity|].
  assert (Hk : keys (store_all (detectors self) msg hist []) = names self).
  { rewrite store_all_keys; [reflexivity|exact Hnd|]. intros d _ []. }
  split; [exact Hk|]. split.
  - rewrite Hk. exact Hnd.
  - rewrite <- (length_map fst).
    fold (keys (store_all (detectors self) msg hist [])).
    rewrite Hk. apply length_map.
Qed.

Lemma analyze_conversation_one_entry_per_detector_witness :
  NoDup (names Samples.all_fail)
  /\ exists all_results,
       outcome (analyze_conversation Samples.all_fail Samples.message None)
       = Ok all_results
       /\ keys all_results = names Samples.all_fail
       /\ NoDup (keys all_results)
       /\ List.length all_results = List.length (detectors Samples.all_fail).
Proof.
  split; [nodup_names|].
  apply (analyze_conversation_one_entry_per_detector
           Samples.all_fail Samples.message None).
  nodup_names.
Defined.

(** C3. A detector that raises during [analyze_conversation] is caught on
    the spot: the call still returns, the failure is logged, and the entry
    of that detector is the placeholder
    [{error: str(e), classification: "error_detector_failed"}].
    The decision loop skips that entry with a warning, and
    [is_manipulative] ends exactly as it does on the firewall without the
    failed detector: nothing of the failure reaches the caller of either
    method. *)
Theorem detector_failure_is_contained
    (self : firewall) (msg : string) (hist : option (list string))
    (d : detector) (e : exn) (threshold : pyfloat) :
  NoDup (names self) ->
  In d (detectors self) ->
  analyze_text d msg hist = Raise e ->
  (exists all_results,
      outcome (analyze_conversation self msg hist) = Ok all_results
      /\ dict_get (class_name d) all_results
         = Some (VDict [ ("error", VStr (exn_msg e));
                         ("classification", VStr "error_detector_failed") ])
      /\ In (LogDetectorFailed (class_name d) e)
            (logs (analyze_conversation self msg hist)))
  /\ check_entry (class_name d)
       (VDict [ ("error", VStr (exn_msg e));
                ("classification", VStr "error_detector_failed") ])
       threshold
     = ([LogSkipErrored (class_name d) (VStr (exn_msg e))], Ok None)
  /\ (forall before after,
        detectors self = before ++ d :: after ->
        outcome (is_manipulative self msg hist threshold)
        = outcome (is_manipulative (Firewall (before ++ after)) msg hist
                     threshold)).
Proof.
  intros Hnd Hin He. split; [|split].
  2: exact (placeholder_errored e (class_name d) threshold).
  - rewrite analyze_conversation_eq. eexists. split; [reflexivity|]. split.
    + rewrite store_all_get by assumption.
      unfold stored_entry. now rewrite He.
    + cbn [logs fst]. apply in_flat_map. exists d. split; [assumption|].
      unfold failure_log. rewrite He. now left.
  - intros before after Hsplit. destruct self as [ds]. cbn in Hsplit.
    subst ds. apply walked_over_as_if_absent; [exact Hnd|].
    unfold stored_entry. now rewrite He.
Qed.

Lemma detector_failure_is_contained_witness :
  (exists all_results,
      outcome (analyze_conversation Samples.echo_fails Samples.message None)
      = Ok all_results
      /\ dict_get "EchoChamberDetector" all_results
         = Some (VDict [ ("error", VStr "boom");
                         ("classification", VStr "error_detector_failed") ])
      /\ In (LogDetectorFailed "EchoChamberDetector" Samples.boom)
            (logs (analyze_conversation Samples.echo_fails
                     Samples.message None)))
  /\ check_entry "EchoChamberDetector"
       (VDict [ ("error", VStr "boom");
                ("classification", VStr "error_detector_failed") ])
       default_threshold
     = ([LogSkipErrored "EchoChamberDetector" (VStr "boom")], Ok None)
  /\ (forall before after,
        detectors Samples.echo_fails
        = before
            ++ Detector "EchoChamberDetector"
                 (Samples.always (Raise Samples.boom))
            :: after ->
        outcome (is_manipulative Samples.echo_fails Samples.message None
                   default_threshold)
        = outcome (is_manipulative (Firewall (before ++ after))
                     Samples.message None default_threshold)).
Proof.
  apply (detector_failure_is_contained Samples.echo_fails Samples.message
           None (Detector "EchoChamberDetector"
                   (Samples.always (Raise Samples.boom)))
           Samples.boom default_threshold).
  - nodup_names.
  - cbn. auto.
  - reflexivity.
Defined.

(** C9. When every registered detector fails, every entry of the result
    map is the failure placeholder and [is_manipulative] returns [False]:
    it neither raises nor flags. *)
Theorem total_failure_fails_open
    (self : firewall) (msg : string) (hist : option (list string))
    (threshold : pyfloat) :
  (forall d, In d (detectors self) ->
             exists e, analyze_text d msg hist = Raise e) ->
  (exists all_results,
      outcome (analyze_conversation self msg hist) = Ok all_results
      /\ forall name v, In (name, v) all_results ->
                        exists e, v = error_placeholder e)
  /\ outcome (is_manipulative self msg hist threshold) = Ok false.
Proof.
  intros Hfail.
  assert (Hall : forall name v,
             In (name, v) (store_all (detectors self) msg hist []) ->
             exists e, v = error_placeholder e).
  { intros name v Hin. apply store_all_in in Hin.
    destruct Hin as [[]|(d & Hd & _ & ->)].
    destruct (Hfail d Hd) as (e & He). exists e.
    unfold stored_entry. now rewrite He. }
  split.
  - rewrite analyze_conversation_eq. eexists. split; [reflexivity|exact Hall].
  - rewrite is_manipulative_eq. cbn [outcome snd].
    rewrite decide_no_match; [reflexivity|].
    intros name v Hin. destruct (Hall name v Hin) as (e & ->).
    reflexivity.
Qed.

Lemma total_failure_fails_open_witness :
  (exists all_results,
      outcome (analyze_conversation Samples.all_fail Samples.message None)
      = Ok all_results
      /\ forall name v, In (name, v) all_results ->
                        exists e, v = error_placeholder e)
  /\ outcome (is_manipulative Samples.all_fail Samples.message None
                default_threshold) = Ok false.
Proof.
  apply (total_failure_fails_open Samples.all_fail Samples.message None
           default_threshold).
  intros d [<-|[<-|[<-|[<-|[]]]]]; exists Samples.boom; reflexivity.
Defined.

(** ** Decision policy *)

Section FirstMatch.
Variable threshold : pyfloat.

(** An entry that qualifies with a score no float holds: the message of
    the "flagged" record cannot be built. *)
Lemma overflow_check_entry (name : string) (r : dict) :
  qualifies name (VDict r) threshold = true ->
  formattable (score (policy_of name) r) = false ->
  check_entry name (VDict r) threshold
  = (unhandled_log name,
     Raise (OverflowError "int too large to convert to float")).
Proof.
  unfold qualifies, label. intros H Hfmt.
  apply andb_prop in H. destruct H as [H Hs].
  apply andb_prop in H. destruct H as [He Hl].
  apply negb_true_iff in He.
  rewrite check_entry_dict, He, andb_false_r.
  destruct (get_default "classification" (VStr "unknown") r);
    try discriminate.
  rewrite Hl.
  destruct (to_number (score (policy_of name) r)); [|discriminate].
  now rewrite Hs, Hfmt.
Qed.

Lemma decide_first_overflow (pre post : dict) (name : string) (r : dict) :
  (forall n v, In (n, v) pre ->
               outcome (check_entry n v threshold) = Ok None) ->
  qualifies name (VDict r) threshold = true ->
  formattable (score (policy_of name) r) = false ->
  decide (pre ++ (name, VDict r) :: post) threshold
  = (scan_log pre threshold ++ unhandled_log name,
     Raise (OverflowError "int too large to convert to float")).
Proof.
  intros Hpre Hq Hfmt. rewrite decide_skip by assumption.
  rewrite decide_cons, overflow_check_entry by assumption.
  reflexivity.
Qed.

Lemma qualifies_formattable_triggers (name : string) (r : dict) :
  qualifies name (VDict r) threshold = true ->
  formattable (score (policy_of name) r) = true ->
  triggers name (VDict r) threshold = true.
Proof. unfold triggers. now intros -> ->. Qed.
End FirstMatch.

(** The first-match policy on the firewall that [__init__] builds, for a
    well-formed result map.  The loop stops at the first entry that
    qualifies, which is one of a RuleBasedDetector, an EchoChamberDetector
    or an InjectionDetector: it returns [True] there, the entries after it
    leaving no trace in the log, unless the score is an int that no float
    holds, in which case building the log message raises.  It returns
    [False] when no entry qualifies. *)
Lemma first_match_on_well_formed_results
    (c1 c2 c3 c4 : res analyze_fn) (self : firewall) (msg : string)
    (hist : option (list string)) (threshold : pyfloat) (results : dict) :
  outcome (init c1 c2 c3 c4) = Ok self ->
  outcome (analyze_conversation self msg hist) = Ok results ->
  well_formed_results results ->
  (forall pre name r post,
      results = pre ++ (name, VDict r) :: post ->
      none_qualifies pre threshold ->
      qualifies name (VDict r) threshold = true ->
      In name flagging_kinds
      /\ is_manipulative self msg hist threshold
         = if formattable (score (policy_of name) r) then
             (logs (analyze_conversation self msg hist)
                ++ scan_log pre threshold
                ++ [flagged_record name r threshold],
              Ok true)
           else
             (logs (analyze_conversation self msg hist)
                ++ scan_log pre threshold,
              Raise (OverflowError "int too large to convert to float")))
  /\ (none_qualifies results threshold ->
      outcome (is_manipulative self msg hist threshold) = Ok false)
  /\ (outcome (is_manipulative self msg hist threshold) = Ok true ->
      exists name v,
        In (name, v) results /\ In name flagging_kinds
        /\ qualifies name v threshold = true).
Proof.
  intros Hinit Hres Hwf.
  apply analyze_conversation_results in Hres.
  destruct (init_ok_inv _ _ _ _ _ Hinit) as (rb & ml & ec & inj & Hself).
  assert (Hkind : forall name v, In (name, v) results ->
                    qualifies name v threshold = true ->
                    In name flagging_kinds).
  { intros name v Hin Hq. rewrite Hres in Hin. apply store_all_in in Hin.
    destruct Hin as [[]|(d & Hd & Hname & Hv)].
    rewrite Hself in Hd. cbn in Hd.
    destruct Hd as [<-|[<-|[<-|[<-|[]]]]]; subst name; cbn; auto.
    exfalso.
    assert (Hn : neutralised v) by (subst v; now apply ml_stored_entry).
    destruct (neutralised_walked_over v threshold Hn) as [_ Hnq].
    cbn in Hq. congruence. }
  rewrite is_manipulative_eq, analyze_conversation_eq, <- Hres.
  cbn [logs outcome fst snd].
  split; [|split].
  - intros pre name r post Hsplit Hpre Hq.
    assert (Hk : In name flagging_kinds).
    { apply (Hkind name (VDict r)); [|assumption].
      rewrite Hsplit. apply in_or_app. right. now left. }
    split; [exact Hk|].
    assert (Hreg : unhandled_log name = []).
    { cbn in Hk. destruct Hk as [<-|[<-|[<-|[]]]]; reflexivity. }
    rewrite Hsplit in Hwf |- *.
    apply well_formed_app in Hwf. destruct Hwf as [Hwfpre _].
    destruct (formattable (score (policy_of name) r)) eqn:Hfmt.
    + rewrite decide_first_match;
        [|now apply well_formed_skip
         |now apply qualifies_formattable_triggers].
      cbn [logs outcome fst snd]. now rewrite Hreg.
    + rewrite decide_first_overflow;
        [|now apply well_formed_skip|assumption|assumption].
      cbn [logs outcome fst snd]. now rewrite Hreg, app_nil_r.
  - intros Hnone. rewrite decide_no_match; [reflexivity|].
    now apply well_formed_skip.
  - intros Ht.
    destruct (decide_true_inv _ _ Ht) as (pre & name & r & post & -> & _ & Hq).
    apply triggers_qualifies in Hq.
    exists name, (VDict r).
    assert (Hin : In (name, VDict r) (pre ++ (name, VDict r) :: post))
      by (apply in_or_app; right; now left).
    repeat split; [assumption| |assumption].
    now apply (Hkind name (VDict r)).
Qed.

(** C1 (defect).  The message of the "flagged" record is built before
    [return True], and its [{score:.2f}] converts an int score to a float.
    On the firewall of [__init__], let the rule-based detector return the
    classification "manipulative_pattern" with the probability [2^1024],
    the other detectors being quiet.  The entry is a mapping, not errored,
    flagged by its keywords, with a score above the threshold [0.75]: it
    qualifies, and it is the first one.  [is_manipulative] does not return
    [True]: it raises [OverflowError]. *)
Theorem first_match_lost_to_overflow :
  outcome (init (Ok (Samples.always (Ok EdgeSamples.rule_huge)))
             (Ok (Samples.always (Ok Samples.ml_hit)))
             (Ok (Samples.always (Ok Samples.echo_benign)))
             (Ok (Samples.always (Ok Samples.injection_benign))))
  = Ok EdgeSamples.rule_overflows
  /\ outcome (analyze_conversation EdgeSamples.rule_overflows
                Samples.message None)
     = Ok [ ("RuleBasedDetector", EdgeSamples.rule_huge);
            ("MLBasedDetector", Samples.ml_neutral);
            ("EchoChamberDetector", Samples.echo_benign);
            ("InjectionDetector", Samples.injection_benign) ]
  /\ qualifies "RuleBasedDetector" EdgeSamples.rule_huge default_threshold
     = true
  /\ is_manipulative EdgeSamples.rule_overflows Samples.message None
       default_threshold
     = ([], Raise (OverflowError "int too large to convert to float")).
Proof. repeat split; vm_compute; reflexivity. Qed.

(** C5 (as stated): the output of [is_manipulative] does not identify the
    triggering analyzer.  The rule-based detector trips one firewall, the
    injection detector another, and both calls return the same [True]: no
    field of the output can name the trigger. *)
Lemma verdict_does_not_name_the_trigger :
  outcome (is_manipulative Samples.rule_trips Samples.message None
             default_threshold)
  = outcome (is_manipulative Samples.injection_trips Samples.message None
               default_threshold)
  /\ ~ exists triggering_analyzer : res bool -> option string,
        forall self msg hist threshold pre name r post,
          outcome (analyze_conversation self msg hist)
          = Ok (pre ++ (name, VDict r) :: post) ->
          none_qualifies pre threshold ->
          qualifies name (VDict r) threshold = true ->
          triggering_analyzer
            (outcome (is_manipulative self msg hist threshold))
          = Some name.
Proof.
  split; [reflexivity|].
  intros (field & H).
  assert (H1 := H Samples.rule_trips Samples.message None default_threshold
                  [] "RuleBasedDetector"
                  [ ("classification", VStr "manipulative_pattern");
                    ("rule_based_probability", VFloat (FFin (7 # 8))) ]
                  (tl Samples.rule_trips_results)
                  eq_refl (fun n v (F : In (n, v) []) => match F with end)
                  eq_refl).
  assert (Hpre : none_qualifies
                   (firstn 3 Samples.injection_trips_results)
                   default_threshold).
  { intros n v [Heq|[Heq|[Heq|[]]]]; inversion Heq; reflexivity. }
  assert (H2 := H Samples.injection_trips Samples.message None
                  default_threshold
                  (firstn 3 Samples.injection_trips_results)
                  "InjectionDetector"
                  [ ("classification", VStr "prompt_injection");
                    ("score", VFloat (FFin (7 # 8))) ]
                  [] eq_refl Hpre eq_refl).
  cbv in H1, H2. congruence.
Qed.

(** C5 (amended). [is_manipulative] returns a bare boolean.  When some
    entry of a well-formed result map qualifies, the first one having a
    score that the log message can show (a float, a bool, or an int within
    the range of the floats), it returns [True] and the last record it logs
    is the "flagged" record naming that first qualifying analyzer in
    registration order, the only such record of the call; when no entry
    qualifies it returns [False] and logs no such record. *)
Theorem trigger_is_named_in_the_log_only
    (self : firewall) (msg : string) (hist : option (list string))
    (threshold : pyfloat) (results : dict) :
  outcome (analyze_conversation self msg hist) = Ok results ->
  well_formed_results results ->
  (forall pre name r post,
      results = pre ++ (name, VDict r) :: post ->
      none_qualifies pre threshold ->
      qualifies name (VDict r) threshold = true ->
      formattable (score (policy_of name) r) = true ->
      outcome (is_manipulative self msg hist threshold) = Ok true
      /\ exists l,
           logs (is_manipulative self msg hist threshold)
           = l ++ [LogFlagged name
                     (get_default "classification" (VStr "N/A") r)
                     (score (policy_of name) r) threshold]
           /\ no_flagged_record l)
  /\ (none_qualifies results threshold ->
      outcome (is_manipulative self msg hist threshold) = Ok false
      /\ no_flagged_record (logs (is_manipulative self msg hist threshold))).
Proof.
  intros Hres Hwf. apply analyze_conversation_results in Hres.
  rewrite is_manipulative_eq, <- Hres. cbn [logs outcome fst snd].
  split.
  - intros pre name r post Hsplit Hpre Hq Hfmt.
    rewrite Hsplit in Hwf |- *.
    apply well_formed_app in Hwf. destruct Hwf as [Hwfpre _].
    rewrite decide_first_match;
      [|now apply well_formed_skip
       |now apply qualifies_formattable_triggers].
    split; [reflexivity|]. cbn [logs fst].
    exists (flat_map (fun d => failure_log d msg hist) (detectors self)
              ++ scan_log pre threshold ++ unhandled_log name).
    split.
    + now rewrite <- !app_assoc.
    + repeat apply no_flagged_record_app.
      * apply failure_log_not_flagged.
      * now apply scan_log_not_flagged.
      * apply unhandled_log_not_flagged.
  - intros Hnone. rewrite decide_no_match by now apply well_formed_skip.
    split; [reflexivity|]. cbn [logs fst].
    apply no_flagged_record_app.
    + apply failure_log_not_flagged.
    + now apply scan_log_not_flagged.
Qed.

Lemma injection_trips_results_well_formed :
  well_formed_results Samples.injection_trips_results.
Proof. repeat constructor. Defined.

Lemma trigger_is_named_in_the_log_only_witness :
  outcome (is_manipulative Samples.injection_trips Samples.message None
             default_threshold) = Ok true
  /\ exists l,
       logs (is_manipulative Samples.injection_trips Samples.message None
               default_threshold)
       = l ++ [LogFlagged "InjectionDetector" (VStr "prompt_injection")
                 (VFloat (FFin (7 # 8))) default_threshold]
       /\ no_flagged_record l.
Proof.
  refine (proj1 (trigger_is_named_in_the_log_only
                   Samples.injection_trips Samples.message None
                   default_threshold Samples.injection_trips_results
                   eq_refl injection_trips_results_well_formed)
            (firstn 3 Samples.injection_trips_results)
            "InjectionDetector"
            [ ("classification", VStr "prompt_injection");
              ("score", VFloat (FFin (7 # 8))) ]
            [] eq_refl _ eq_refl eq_refl).
  intros n v [Heq|[Heq|[Heq|[]]]]; inversion Heq; reflexivity.
Defined.

(** ** The placeholder detector *)

(** C4. Whatever mapping the MLBasedDetector returns, even one classified
    "manipulative", [analyze_conversation] stores it with its
    classification overwritten by ["neutral_ml_placeholder"] (a result that
    is not a mapping ends as the failure placeholder).  Hence the entry of
    the MLBasedDetector is never flagged: the loop walks over it for every
    threshold, and no "flagged" record of [is_manipulative] ever names
    it. *)
Theorem ml_detector_never_flags
    (self : firewall) (msg : string) (hist : option (list string))
    (threshold : pyfloat) (results : dict) :
  outcome (analyze_conversation self msg hist) = Ok results ->
  (forall d raw all_results,
      class_name d = "MLBasedDetector" ->
      analyze_text d msg hist = Ok (VDict raw) ->
      exists stored,
        analyze_one d msg hist all_results
        = ([], Ok (dict_set "MLBasedDetector" (VDict stored) all_results))
        /\ stored = dict_set "classification"
                      (VStr "neutral_ml_placeholder") raw
        /\ get "classification" stored = VStr "neutral_ml_placeholder")
  /\ (forall v,
        In ("MLBasedDetector", v) results ->
        neutralised v
        /\ outcome (check_entry "MLBasedDetector" v threshold) = Ok None
        /\ qualifies "MLBasedDetector" v threshold = false)
  /\ (forall classification score t,
        ~ In (LogFlagged "MLBasedDetector" classification score t)
            (logs (is_manipulative self msg hist threshold))).
Proof.
  intros Hres. apply analyze_conversation_results in Hres.
  assert (Hml : forall v, In ("MLBasedDetector", v) results ->
                          neutralised v).
  { intros v Hin. rewrite Hres in Hin.
    now apply (ml_entries_neutralised msg hist (detectors self)). }
  split; [|split].
  - intros d raw acc Hname Hraw. eexists. split; [|split; [reflexivity|]].
    + rewrite analyze_one_eq. unfold failure_log, stored_entry.
      now rewrite Hraw, Hname.
    + unfold get. now rewrite dict_get_set_same.
  - intros v Hin. split; [now apply Hml|].
    apply neutralised_walked_over. now apply Hml.
  - intros c s t Hin. rewrite is_manipulative_eq in Hin. cbn [logs fst] in Hin.
    apply in_app_or in Hin. destruct Hin as [Hin|Hin].
    + pose proof (no_flagged_record_in _ _
                    (failure_log_not_flagged msg hist (detectors self)) Hin).
      discriminate.
    + destruct (decide_flagged_record _ _ _ Hin eq_refl)
        as (name & r & Hr & Hq & Heq).
      unfold flagged_record in Heq. injection Heq as <- _ _ _.
      rewrite <- Hres in Hr.
      destruct (neutralised_walked_over _ threshold (Hml _ Hr)) as [_ Hnq].
      congruence.
Qed.

Lemma ml_detector_never_flags_witness :
  neutralised Samples.ml_neutral
  /\ outcome (check_entry "MLBasedDetector" Samples.ml_neutral
                default_threshold) = Ok None
  /\ qualifies "MLBasedDetector" Samples.ml_neutral default_threshold = false.
Proof.
  apply (proj1 (proj2 (ml_detector_never_flags
                         Samples.rule_trips Samples.message None
                         default_threshold Samples.rule_trips_results
                         eq_refl))).
  cbn. auto.
Defined.

(** ** Errored entries *)



(** ** Scores and thresholds *)

Lemma float_lt_not_ge (x y : pyfloat) :
  float_lt x y = true -> float_ge x y = false.
Proof.
  destruct x, y; cbn; try discriminate; try reflexivity.
  apply negb_true_iff.
Qed.

Lemma flagged_not_errored (name : string) (r : dict) (s : string) :
  get_default "classification" (VStr "unknown") r = VStr s ->
  flagged (policy_of name) (lower s) = true ->
  errored r = false.
Proof.
  intros Hc Hf. destruct (errored r) eqn:He; [|reflexivity].
  pose proof (errored_label r He) as Hl. unfold label in Hl.
  rewrite Hc in Hl. injection Hl as Hl.
  rewrite Hl, failure_label_not_flagged in Hf. discriminate.
Qed.

Lemma unregistered_policy (name : string) :
  registered_kind name = false ->
  policy_of name = generic_policy
  /\ unhandled_log name = [LogUnhandled name].
Proof.
  intros Hreg. unfold unhandled_log. rewrite Hreg.
  split; [|reflexivity].
  unfold registered_kind in Hreg. cbn in Hreg.
  repeat (apply orb_false_elim in Hreg;
          let H := fresh "H" in destruct Hreg as [H Hreg]).
  unfold policy_of. cbn. now rewrite H, H0, H1, H2.
Qed.

(** C7 (as stated): an entry without its score field does make
    [is_manipulative] return [True] when the threshold is [0.0].  The
    rule-based detector reports a flagged classification and no
    probability; the default score [0.0] reaches the threshold [0.0]. *)
Lemma absent_score_flags_at_zero_threshold :
  score_absent "RuleBasedDetector"
    [ ("classification", VStr "manipulative_pattern") ]
  /\ outcome (analyze_conversation Samples.rule_no_score Samples.message None)
     = Ok [ ("RuleBasedDetector",
             VDict [ ("classification", VStr "manipulative_pattern") ]);
            ("MLBasedDetector", Samples.ml_neutral);
            ("EchoChamberDetector", Samples.echo_benign);
            ("InjectionDetector", Samples.injection_benign) ]
  /\ is_manipulative Samples.rule_no_score Samples.message None zero
     = ([ LogFlagged "RuleBasedDetector" (VStr "manipulative_pattern")
            (VFloat zero) zero ],
        Ok true).
Proof. repeat split. Qed.

(** C7 (amended). When the authoritative score field of an entry is
    absent, the score compared with the threshold is [0.0]; the entry then
    never makes [is_manipulative] return [True] for a threshold above [0.0],
    while at a threshold that [0.0] reaches an entry whose classification
    matches the keywords of its kind does. *)
Theorem absent_score_is_zero
    (name : string) (r : dict) (threshold : pyfloat) :
  score_absent name r ->
  (forall label,
      outcome (normalize name label r)
      = Ok (flagged (policy_of name) label, VFloat zero))
  /\ (float_lt zero threshold = true ->
      outcome (check_entry name (VDict r) threshold) <> Ok (Some true)
      /\ qualifies name (VDict r) threshold = false)
  /\ (float_ge zero threshold = true ->
      forall s,
        get_default "classification" (VStr "unknown") r = VStr s ->
        flagged (policy_of name) (lower s) = true ->
        outcome (check_entry name (VDict r) threshold) = Ok (Some true)).
Proof.
  intros Habs.
  assert (Hscore : score (policy_of name) r = VFloat zero)
    by (unfold score; now rewrite Habs).
  split; [|split].
  - intros label. now rewrite normalize_eq, Hscore.
  - intros Hlt. apply float_lt_not_ge in Hlt.
    assert (Hq : qualifies name (VDict r) threshold = false).
    { unfold qualifies. rewrite Hscore. cbn [to_number]. rewrite Hlt.
      apply andb_false_r. }
    split; [|exact Hq].
    intros H. apply check_entry_true_iff, triggers_qualifies in H.
    congruence.
  - intros Hge s Hc Hf. apply check_entry_true_iff.
    unfold triggers, qualifies, label.
    rewrite (flagged_not_errored name r s Hc Hf), Hc, Hf, Hscore.
    cbn [to_number formattable]. now rewrite Hge.
Qed.

Lemma absent_score_is_zero_witness :
  outcome (check_entry "RuleBasedDetector"
             (VDict [ ("classification", VStr "manipulative_pattern") ])
             default_threshold) <> Ok (Some true)
  /\ qualifies "RuleBasedDetector"
       (VDict [ ("classification", VStr "manipulative_pattern") ])
       default_threshold = false.
Proof.
  exact (proj1 (proj2 (absent_score_is_zero "RuleBasedDetector"
                         [ ("classification", VStr "manipulative_pattern") ]
                         default_threshold eq_refl))
           eq_refl).
Defined.

(** C8. An entry whose detector name is none of the four registered kinds
    takes the generic branch: a warning is logged, the entry is flagged
    exactly when its lower-cased classification contains "manipulative",
    "concern", or "potential" without "benign", and its authoritative score
    is the first present of the fields [probability], [confidence] and
    [score], [0.0] when none is.  With these two the entry makes the loop
    return [True] exactly when it is flagged, its score is a number that
    reaches the threshold, and the log message can show that number. *)
Theorem unknown_kind_takes_generic_fallback
    (name : string) (r : dict) (threshold : pyfloat) :
  registered_kind name = false ->
  (forall label,
      normalize name label r
      = ([LogUnhandled name],
         Ok (str_in "manipulative" label
             || str_in "concern" label
             || (str_in "potential" label && negb (str_in "benign" label)),
             match first_present ["probability"; "confidence"; "score"] r with
             | Some v => v
             | None => VFloat zero
             end)))
  /\ (forall s,
        get_default "classification" (VStr "unknown") r = VStr s ->
        (outcome (check_entry name (VDict r) threshold) = Ok (Some true)
         <-> (str_in "manipulative" (lower s)
              || str_in "concern" (lower s)
              || (str_in "potential" (lower s)
                  && negb (str_in "benign" (lower s)))) = true
             /\ (exists x,
                   to_number
                     match first_present
                             ["probability"; "confidence"; "score"] r with
                     | Some v => v
                     | None => VFloat zero
                     end = Some x
                   /\ float_ge x threshold = true)
             /\ formattable
                  match first_present
                          ["probability"; "confidence"; "score"] r with
                  | Some v => v
                  | None => VFloat zero
                  end = true)).
Proof.
  intros Hreg. destruct (unregistered_policy name Hreg) as [Hpol Hlog].
  assert (Hflag : forall label,
             flagged (policy_of name) label
             = str_in "manipulative" label
               || str_in "concern" label
               || (str_in "potential" label
                   && negb (str_in "benign" label))).
  { intros label. rewrite Hpol. unfold flagged, rule_matches. cbn.
    now rewrite !andb_true_r, orb_false_r, orb_assoc. }
  assert (Hscore : score (policy_of name) r
                   = match first_present
                             ["probability"; "confidence"; "score"] r with
                     | Some v => v
                     | None => VFloat zero
                     end)
    by now rewrite Hpol.
  split.
  - intros label. now rewrite normalize_eq, Hlog, Hflag, Hscore.
  - intros s Hc. rewrite check_entry_true_iff, <- Hflag, <- Hscore.
    unfold triggers, qualifies, label. rewrite Hc. split.
    + intros H. apply andb_prop in H. destruct H as [H Hfmt].
      apply andb_prop in H. destruct H as [H Hs].
      apply andb_prop in H. destruct H as [_ Hf].
      split; [exact Hf|]. split; [|exact Hfmt].
      destruct (to_number (score (policy_of name) r)) as [x|];
        [|discriminate].
      now exists x.
    + intros [Hf [(x & Hx & Hge) Hfmt]].
      now rewrite (flagged_not_errored name r s Hc Hf), Hf, Hx, Hge, Hfmt.
Qed.

Lemma unknown_kind_takes_generic_fallback_witness :
  normalize "ToxicityDetector" "potential_threat"
    [ ("classification", VStr "Potential_Threat");
      ("confidence", VFloat (FFin (7 # 8)));
      ("score", VFloat zero) ]
  = ([LogUnhandled "ToxicityDetector"],
     Ok (true, VFloat (FFin (7 # 8)))).
Proof.
  exact (proj1 (unknown_kind_takes_generic_fallback "ToxicityDetector"
                  [ ("classification", VStr "Potential_Threat");
                    ("confidence", VFloat (FFin (7 # 8)));
                    ("score", VFloat zero) ]
                  default_threshold eq_refl)
           "potential_threat").
Defined.

(** The authoritative score is compared with the threshold as it was
    returned, with no clamping to [0, 1] and no validation: an entry whose
    classification matches the keywords of its kind is walked over when its
    score is below the threshold, whatever the two numbers are; when its
    score reaches the threshold the loop returns [True], unless the score is
    an int that no float holds, in which case building the log message
    raises. *)
Lemma score_compared_as_returned
    (name : string) (r : dict) (s : string) (x threshold : pyfloat) :
  get_default "classification" (VStr "unknown") r = VStr s ->
  flagged (policy_of name) (lower s) = true ->
  to_number (score (policy_of name) r) = Some x ->
  outcome (check_entry name (VDict r) threshold)
  = (if float_ge x threshold then
       if formattable (score (policy_of name) r) then Ok (Some true)
       else Raise (OverflowError "int too large to convert to float")
     else Ok None)
  /\ outcome (decide [(name, VDict r)] threshold)
     = (if float_ge x threshold then
          if formattable (score (policy_of name) r) then Ok true
          else Raise (OverflowError "int too large to convert to float")
        else Ok false).
Proof.
  intros Hc Hf Hx.
  assert (Hentry : outcome (check_entry name (VDict r) threshold)
                   = (if float_ge x threshold then
                        if formattable (score (policy_of name) r)
                        then Ok (Some true)
                        else Raise (OverflowError
                                      "int too large to convert to float")
                      else Ok None)).
  { rewrite check_entry_dict, (flagged_not_errored name r s Hc Hf),
      andb_false_r, Hc, Hf, Hx.
    destruct (float_ge x threshold); [|reflexivity].
    now destruct (formattable (score (policy_of name) r)). }
  split; [exact Hentry|].
  rewrite decide_cons, Hentry.
  destruct (float_ge x threshold); [|reflexivity].
  now destruct (formattable (score (policy_of name) r)).
Qed.

Example score_above_one :
  outcome (decide [ ("InjectionDetector", Samples.injection_hit (3 # 2)) ]
             (FFin 1)) = Ok true.
Proof. reflexivity. Qed.

(** C10 (defect).  A score is not always usable as returned.  The
    injection detector's entry is classified "prompt_injection" and its
    score is the int [2^1024]: the classification matches the keywords of
    its kind and the score is above the threshold [0.75], yet the entry
    does not produce a true verdict.  Building the message of the "flagged"
    record converts the score to a float, which raises [OverflowError]
    before [return True] is reached. *)
Theorem huge_score_raises_before_return :
  flagged (policy_of "InjectionDetector") (lower "prompt_injection") = true
  /\ py_ge (VInt EdgeSamples.huge) default_threshold = Ok true
  /\ check_entry "InjectionDetector" EdgeSamples.injection_huge
       default_threshold
     = ([], Raise (OverflowError "int too large to convert to float"))
  /\ decide [ ("InjectionDetector", EdgeSamples.injection_huge) ]
       default_threshold
     = ([], Raise (OverflowError "int too large to convert to float")).
Proof. repeat split; vm_compute; reflexivity. Qed.

(** ** The scenarios of the specification *)

Example rule_based_above_threshold :
  is_manipulative Samples.rule_trips Samples.message None default_threshold
  = ([ LogFlagged "RuleBasedDetector" (VStr "manipulative_pattern")
         (VFloat (FFin (7 # 8))) default_threshold ],
     Ok true).
Proof. reflexivity. Qed.

Example rule_based_below_threshold :
  outcome (is_manipulative
             (Samples.four (Ok (Samples.rule_hit (1 # 2))) (Ok Samples.ml_hit)
                (Ok Samples.echo_benign) (Ok Samples.injection_benign))
             Samples.message None default_threshold)
  = Ok false.
Proof. reflexivity. Qed.

Example one_detector_faults :
  is_manipulative Samples.echo_fails Samples.message None default_threshold
  = ([ LogDetectorFailed "EchoChamberDetector" Samples.boom;
       LogSkipErrored "EchoChamberDetector" (VStr "boom") ],
     Ok false).
Proof. reflexivity. Qed.

Example negative_score_below_negative_threshold :
  outcome (decide [ ("InjectionDetector", Samples.injection_hit (- (1 # 2))) ]
             (FFin (- (1 # 4)))) = Ok false
  /\ outcome (decide [ ("InjectionDetector",
                        Samples.injection_hit (- (1 # 2))) ]
                (FFin (- 1))) = Ok true.
Proof. split; reflexivity. Qed.

(** * Further properties of the class *)


(** ** More facts on the loop body *)

Section OutcomeFacts.
Variable threshold : pyfloat.

Lemma errored_is_str (r : dict) :
  errored r = true ->
  get_default "classification" (VStr "unknown") r
  = VStr "error_detector_failed".
Proof.
  unfold errored, get, get_default, py_eq_str.
  destruct (dict_get "classification" r) as [[]|]; try discriminate.
  intros H. apply String.eqb_eq in H. now subst.
Qed.

(** The outcome of the loop body on a mapping with a string label. *)
Lemma check_entry_outcome_str (name : string) (r : dict) (s : string) :
  get_default "classification" (VStr "unknown") r = VStr s ->
  outcome (check_entry name (VDict r) threshold)
  = if flagged (policy_of name) (lower s) then
      match to_number (score (policy_of name) r) with
      | Some x =>
          if float_ge x threshold then
            if formattable (score (policy_of name) r) then Ok (Some true)
            else Raise (OverflowError "int too large to convert to float")
          else Ok None
      | None =>
          Raise (TypeError ("'>=' not supported between instances of '"
                              ++ type_name (score (policy_of name) r)
                              ++ "' and 'float'"))
      end
    else Ok None.
Proof.
  intros Hc. destruct (errored r) eqn:He.
  - rewrite errored_check_entry by assumption.
    rewrite (errored_is_str r He) in Hc. injection Hc as <-.
    now rewrite failure_label_not_flagged.
  - rewrite check_entry_dict, He, andb_false_r, Hc.
    destruct (flagged (policy_of name) (lower s)); [|reflexivity].
    destruct (to_number (score (policy_of name) r)) as [x|]; [|reflexivity].
    destruct (float_ge x threshold); [|reflexivity].
    now destruct (formattable (score (policy_of name) r)).
Qed.

Lemma check_entry_outcome_other (name : string) (r : dict) :
  (forall s, get_default "classification" (VStr "unknown") r <> VStr s) ->
  outcome (check_entry name (VDict r) threshold)
  = Raise (AttributeError
             ("'" ++ type_name (get_default "classification"
                                  (VStr "unknown") r)
                  ++ "' object has no attribute 'lower'")).
Proof.
  intros Hns.
  assert (He : errored r = false).
  { destruct (errored r) eqn:He; [|reflexivity].
    now elim (Hns _ (errored_is_str r He)). }
  rewrite check_entry_dict, He, andb_false_r.
  destruct (get_default "classification" (VStr "unknown") r);
    try reflexivity.
  now elim (Hns s).
Qed.

(** The loop body raises exactly when [failure_kind] names a class, and
    then an exception of that class. *)
Lemma check_entry_raise_kind (name : string) (r : dict) :
  match failure_kind name r threshold with
  | Some kind =>
      exists e, outcome (check_entry name (VDict r) threshold) = Raise e
                /\ exn_type e = kind
  | None =>
      forall e, outcome (check_entry name (VDict r) threshold) <> Raise e
  end.
Proof.
  unfold failure_kind.
  destruct (get_default "classification" (VStr "unknown") r) eqn:Hc;
    try (rewrite check_entry_outcome_other
           by (intros s' Hs'; rewrite Hc in Hs'; discriminate);
         eexists; split; reflexivity).
  rewrite (check_entry_outcome_str name r s Hc).
  destruct (flagged (policy_of name) (lower s)); [|discriminate].
  destruct (to_number (score (policy_of name) r)) as [x|];
    [|eexists; split; reflexivity].
  destruct (float_ge x threshold); [|discriminate].
  destruct (formattable (score (policy_of name) r)); cbn;
    [discriminate|eexists; split; reflexivity].
Qed.

Lemma check_entry_raise_inv (name : string) (v : pyval) (e : exn) :
  outcome (check_entry name v threshold) = Raise e ->
  exists r, v = VDict r /\ failure_kind name r threshold = Some (exn_type e).
Proof.
  destruct v as [| | | | |r]; try discriminate.
  intros H. exists r. split; [reflexivity|].
  pose proof (check_entry_raise_kind name r) as Hk.
  destruct (failure_kind name r threshold) as [kind|].
  - destruct Hk as (e' & He' & <-). congruence.
  - now elim (Hk e).
Qed.

Lemma failure_kind_raises (name : string) (r : dict) (kind : string) :
  failure_kind name r threshold = Some kind ->
  exists e, outcome (check_entry name (VDict r) threshold) = Raise e
            /\ exn_type e = kind.
Proof.
  intros H. pose proof (check_entry_raise_kind name r) as Hk.
  now rewrite H in Hk.
Qed.
End OutcomeFacts.

Lemma float_ge_trans (x y z : pyfloat) :
  float_ge x y = true -> float_ge y z = true -> float_ge x z = true.
Proof.
  destruct x, y, z; cbn; try discriminate; try reflexivity.
  rewrite !Qle_bool_iff. intros H1 H2. now apply Qle_trans with q0.
Qed.

Lemma float_ge_nan (x : pyfloat) : float_ge x FNaN = false.
Proof. now destruct x. Qed.

Lemma qualifies_lower_threshold (name : string) (v : pyval)
    (t t' : pyfloat) :
  float_ge t t' = true ->
  qualifies name v t = true -> qualifies name v t' = true.
Proof.
  intros Hge. destruct v as [| | | | |r]; try discriminate.
  unfold qualifies. intros H.
  apply andb_prop in H. destruct H as [H Hs]. rewrite H. cbn.
  destruct (to_number (score (policy_of name) r)) as [x|]; [|discriminate].
  now apply float_ge_trans with t.
Qed.

Lemma triggers_lower_threshold (name : string) (v : pyval)
    (t t' : pyfloat) :
  float_ge t t' = true ->
  triggers name v t = true -> triggers name v t' = true.
Proof.
  unfold triggers. intros Hge H.
  apply andb_prop in H. destruct H as [Hq Hf].
  now rewrite (qualifies_lower_threshold _ _ _ _ Hge Hq), Hf.
Qed.

(** A failure at a threshold is a failure at every lower one. *)
Lemma failure_kind_lower_threshold (name : string) (r : dict)
    (t t' : pyfloat) (kind : string) :
  float_ge t t' = true ->
  failure_kind name r t = Some kind -> failure_kind name r t' = Some kind.
Proof.
  unfold failure_kind. intros Hge.
  destruct (get_default "classification" (VStr "unknown") r); try easy.
  destruct (flagged (policy_of name) (lower s)); [|easy].
  destruct (to_number (score (policy_of name) r)) as [x|]; [|easy].
  destruct (float_ge x t) eqn:Hx; [|discriminate].
  now rewrite (float_ge_trans _ _ _ Hx Hge).
Qed.

(** A failure other than the overflow does not depend on the threshold. *)
Lemma failure_kind_any_threshold (name : string) (r : dict)
    (t t' : pyfloat) (kind : string) :
  failure_kind name r t = Some kind ->
  kind = "OverflowError" \/ failure_kind name r t' = Some kind.
Proof.
  unfold failure_kind.
  destruct (get_default "classification" (VStr "unknown") r); auto.
  destruct (flagged (policy_of name) (lower s)); [|auto].
  destruct (to_number (score (policy_of name) r)) as [x|]; [|auto].
  destruct (float_ge x t && negb (formattable (score (policy_of name) r)));
    [|discriminate].
  intros H. injection H as <-. now left.
Qed.

(** The three ways the loop body can end. *)
Lemma check_entry_cases (name : string) (v : pyval) (t : pyfloat) :
  outcome (check_entry name v t) = Ok (Some true)
  \/ outcome (check_entry name v t) = Ok None
  \/ exists e, outcome (check_entry name v t) = Raise e.
Proof.
  pose proof (check_entry_never_false t name v) as Hnf.
  destruct (outcome (check_entry name v t)) as [[[|]|]|e]; eauto.
  now elim Hnf.
Qed.

Section ThresholdFacts.
Variables t t' : pyfloat.
Hypothesis Hge : float_ge t t' = true.

(** Walked over at the lower threshold, walked over at the higher one. *)
Lemma check_entry_none_higher (name : string) (v : pyval) :
  outcome (check_entry name v t') = Ok None ->
  outcome (check_entry name v t) = Ok None.
Proof.
  intros Hn. destruct (check_entry_cases name v t) as [Ht|[Ht|(e & Ht)]];
    [|assumption|].
  - apply check_entry_true_iff in Ht.
    apply (triggers_lower_threshold _ _ _ _ Hge) in Ht.
    apply check_entry_true_iff in Ht. congruence.
  - apply check_entry_raise_inv in Ht. destruct Ht as (r & -> & Hk).
    apply (failure_kind_lower_threshold _ _ _ _ _ Hge) in Hk.
    destruct (failure_kind_raises _ _ _ _ Hk) as (e' & He' & _).
    congruence.
Qed.

Lemma decide_false_higher (results : dict) :
  outcome (decide results t') = Ok false ->
  outcome (decide results t) = Ok false.
Proof.
  intros H. rewrite decide_no_match; [reflexivity|].
  intros n v Hin. apply check_entry_none_higher.
  now apply (decide_false_inv _ _ H n v Hin).
Qed.

(** Flagged at the higher threshold: at the lower one the loop returns
    [True] as well, unless it meets, not later than the entry that tripped
    it, a score that qualifies there and cannot be written. *)
Lemma decide_true_lower (results : dict) :
  outcome (decide results t) = Ok true ->
  outcome (decide results t') = Ok true
  \/ exists e, outcome (decide results t') = Raise e
               /\ exn_type e = "OverflowError".
Proof.
  induction results as [|[n v] rest IH]; [discriminate|].
  rewrite !decide_cons.
  destruct (check_entry_cases n v t) as [Ht|[Ht|(e & Ht)]]; rewrite Ht;
    cbn [outcome snd]; [| |discriminate].
  - intros _. apply check_entry_true_iff in Ht.
    apply (triggers_lower_threshold _ _ _ _ Hge) in Ht.
    apply check_entry_true_iff in Ht. rewrite Ht. now left.
  - intros H. destruct (check_entry_cases n v t') as [Ht'|[Ht'|(e & Ht')]];
      rewrite Ht'; cbn [outcome snd]; [now left|now apply IH|].
    right. exists e. split; [reflexivity|].
    apply check_entry_raise_inv in Ht'. destruct Ht' as (r & -> & Hk).
    destruct (failure_kind_any_threshold _ _ _ t _ Hk) as [Ho|Hk'];
      [assumption|].
    destruct (failure_kind_raises _ _ _ _ Hk') as (e' & He' & _).
    congruence.
Qed.
End ThresholdFacts.

Lemma decide_raise_inv (results : dict) (t : pyfloat) (e : exn) :
  outcome (decide results t) = Raise e ->
  exists pre name r post,
    results = pre ++ (name, VDict r) :: post
    /\ (forall n v, In (n, v) pre ->
                    outcome (check_entry n v t) = Ok None)
    /\ failure_kind name r t = Some (exn_type e).
Proof.
  induction results as [|[n v] rest IH]; [discriminate|].
  rewrite decide_cons.
  destruct (outcome (check_entry n v t)) as [[b|]|e0] eqn:Hc;
    cbn [outcome snd]; [discriminate| |].
  - intros H. destruct (IH H) as (pre & name & r & post & -> & Hpre & Hr).
    exists ((n, v) :: pre), name, r, post. repeat split; [|assumption].
    intros n' v' [Heq|Hin]; [now inversion Heq; subst|now apply Hpre].
  - intros H. injection H as ->.
    apply check_entry_raise_inv in Hc. destruct Hc as (r & -> & Hr).
    exists [], n, r, rest. repeat split; [|assumption]. intros ? ? [].
Qed.

Lemma decide_raises (pre post : dict) (name : string) (r : dict)
    (t : pyfloat) (kind : string) :
  (forall n v, In (n, v) pre -> outcome (check_entry n v t) = Ok None) ->
  failure_kind name r t = Some kind ->
  exists e, outcome (decide (pre ++ (name, VDict r) :: post) t) = Raise e
            /\ exn_type e = kind.
Proof.
  intros Hpre Hk. destruct (failure_kind_raises _ _ _ _ Hk) as (e & He & Hty).
  exists e. split; [|assumption].
  rewrite decide_skip by assumption. cbn [outcome snd].
  now rewrite decide_cons, He.
Qed.

(** ** Construction *)

(** X1. [__init__] is all or nothing.  It returns a firewall only when the
    four constructors succeed, and then the firewall holds the four
    detectors in the fixed order and one record lists their names.  When a
    constructor raises, the exception that leaves [__init__] is that of the
    first constructor that failed, logged once, and no firewall is
    returned. *)
Theorem init_all_or_nothing (c1 c2 c3 c4 : res analyze_fn) :
  (forall self,
      outcome (init c1 c2 c3 c4) = Ok self ->
      exists rb ml ec inj,
        c1 = Ok rb /\ c2 = Ok ml /\ c3 = Ok ec /\ c4 = Ok inj
        /\ detectors self
           = [ Detector "RuleBasedDetector" rb;
               Detector "MLBasedDetector" ml;
               Detector "EchoChamberDetector" ec;
               Detector "InjectionDetector" inj ]
        /\ logs (init c1 c2 c3 c4)
           = [ LogInitialized [ "RuleBasedDetector"; "MLBasedDetector";
                                "EchoChamberDetector";
                                "InjectionDetector" ] ])
  /\ (forall e,
        outcome (init c1 c2 c3 c4) = Raise e ->
        logs (init c1 c2 c3 c4) = [LogInitFailed e]
        /\ (c1 = Raise e
            \/ (exists rb, c1 = Ok rb /\ c2 = Raise e)
            \/ (exists rb ml, c1 = Ok rb /\ c2 = Ok ml /\ c3 = Raise e)
            \/ (exists rb ml ec,
                  c1 = Ok rb /\ c2 = Ok ml /\ c3 = Ok ec /\ c4 = Raise e)))
  /\ ((exists e, In (Raise e) [c1; c2; c3; c4]) ->
      exists e, outcome (init c1 c2 c3 c4) = Raise e).
Proof.
  split; [|split].
  - intros self H.
    destruct c1 as [rb|], c2 as [ml|], c3 as [ec|], c4 as [inj|];
      cbn in H; try discriminate.
    injection H as <-. exists rb, ml, ec, inj. now repeat split.
  - intros e H.
    destruct c1 as [rb|e1];
      [|cbn in *; injection H as ->; split; [reflexivity|now left]].
    destruct c2 as [ml|e2];
      [|cbn in *; injection H as ->;
        split; [reflexivity|right; left; now exists rb]].
    destruct c3 as [ec|e3];
      [|cbn in *; injection H as ->;
        split; [reflexivity|right; right; left; now exists rb, ml]].
    destruct c4 as [inj|e4]; [discriminate|].
    cbn in *. injection H as ->. split; [reflexivity|].
    right. right. right. now exists rb, ml, ec.
  - intros (e & Hin).
    destruct c1 as [rb|e1]; [|now exists e1].
    destruct c2 as [ml|e2]; [|now exists e2].
    destruct c3 as [ec|e3]; [|now exists e3].
    destruct c4 as [inj|e4]; [|now exists e4].
    cbn in Hin. intuition discriminate.
Qed.

(** ** What the map holds *)

Lemma nodup_names_inj (ds : list detector) (d d' : detector) :
  NoDup (map class_name ds) -> In d ds -> In d' ds ->
  class_name d = class_name d' -> d = d'.
Proof.
  induction ds as [|d0 ds IH]; [intros _ []|].
  cbn [map]. intros Hnd Hd Hd' Heq.
  apply NoDup_cons_iff in Hnd. destruct Hnd as [Hnin Hnd].
  destruct Hd as [<-|Hd], Hd' as [<-|Hd']; auto.
  - elim Hnin. rewrite Heq. now apply in_map.
  - elim Hnin. rewrite <- Heq. now apply in_map.
Qed.

(** X2. What a detector other than the MLBasedDetector returns is stored
    as it is under the detector's class name, mapping or not, and the call
    logs nothing about that detector. *)
Theorem returned_result_stored_verbatim
    (self : firewall) (msg : string) (hist : option (list string))
    (d : detector) (v : pyval) :
  NoDup (names self) ->
  In d (detectors self) ->
  class_name d <> "MLBasedDetector" ->
  analyze_text d msg hist = Ok v ->
  exists all_results,
    outcome (analyze_conversation self msg hist) = Ok all_results
    /\ dict_get (class_name d) all_results = Some v
    /\ forall e, ~ In (LogDetectorFailed (class_name d) e)
                     (logs (analyze_conversation self msg hist)).
Proof.
  intros Hnd Hin Hml Hv.
  apply String.eqb_neq in Hml.
  rewrite analyze_conversation_eq. eexists. split; [reflexivity|]. split.
  - rewrite store_all_get by assumption.
    unfold stored_entry. now rewrite Hv, Hml.
  - intros e Hlog. cbn [logs fst] in Hlog. apply in_flat_map in Hlog.
    destruct Hlog as (d' & Hd' & Hl).
    assert (Hname : class_name d' = class_name d).
    { unfold failure_log in Hl.
      destruct (analyze_text d' msg hist) as [v'|e'].
      - destruct (class_name d' =? "MLBasedDetector")%string; [|destruct Hl].
        destruct v'; try (now destruct Hl);
          destruct Hl as [Hl|[]]; now injection Hl.
      - destruct Hl as [Hl|[]]. now injection Hl. }
    assert (d' = d) by (apply (nodup_names_inj _ _ _ Hnd); auto).
    subst d'. unfold failure_log in Hl. now rewrite Hv, Hml in Hl.
Qed.

Lemma returned_result_stored_verbatim_witness :
  exists all_results,
    outcome (analyze_conversation EdgeSamples.injection_returns_str
               Samples.message None) = Ok all_results
    /\ dict_get "InjectionDetector" all_results = Some (VStr "benign")
    /\ forall e, ~ In (LogDetectorFailed "InjectionDetector" e)
                     (logs (analyze_conversation
                              EdgeSamples.injection_returns_str
                              Samples.message None)).
Proof.
  apply (returned_result_stored_verbatim EdgeSamples.injection_returns_str
           Samples.message None
           (Detector "InjectionDetector" (Samples.always (Ok (VStr "benign"))))
           (VStr "benign")).
  - nodup_names.
  - cbn. auto.
  - discriminate.
  - reflexivity.
Defined.

(** X3. The overwrite of the MLBasedDetector's classification touches
    nothing else: every other field of the returned mapping is stored with
    the value the detector gave it, and the fields keep their order, the
    classification being added last when the detector gave none. *)
Theorem ml_overwrite_keeps_other_fields
    (self : firewall) (msg : string) (hist : option (list string))
    (d : detector) (raw : dict) :
  NoDup (names self) ->
  In d (detectors self) ->
  class_name d = "MLBasedDetector" ->
  analyze_text d msg hist = Ok (VDict raw) ->
  exists all_results stored,
    outcome (analyze_conversation self msg hist) = Ok all_results
    /\ dict_get "MLBasedDetector" all_results = Some (VDict stored)
    /\ (forall k, k <> "classification" ->
                  dict_get k stored = dict_get k raw)
    /\ keys stored
       = if dict_contains "classification" raw then keys raw
         else keys raw ++ ["classification"].
Proof.
  intros Hnd Hin Hname Hraw.
  rewrite analyze_conversation_eq.
  exists (store_all (detectors self) msg hist []),
         (dict_set "classification" ml_sentinel raw).
  split; [reflexivity|]. split; [|split].
  - rewrite <- Hname, store_all_get by assumption.
    unfold stored_entry. now rewrite Hraw, Hname.
  - intros k Hk. apply dict_get_set_other. congruence.
  - unfold dict_contains.
    destruct (dict_get "classification" raw) as [c|] eqn:Hc.
    + apply keys_set_present. apply dict_get_in in Hc.
      change "classification" with (fst ("classification", c)).
      now apply in_map.
    + apply keys_set_fresh. intros Hk. unfold keys in Hk.
      apply in_map_iff in Hk. destruct Hk as ([k c] & Hk & Hkc).
      cbn in Hk. subst k. clear -Hc Hkc.
      induction raw as [|[k0 v0] raw IH]; [destruct Hkc|].
      cbn in Hc. destruct (k0 =? "classification")%string eqn:E;
        [discriminate|].
      destruct Hkc as [Heq|Hkc]; [|now apply IH].
      injection Heq as -> _. now rewrite String.eqb_refl in E.
Qed.

Lemma ml_overwrite_keeps_other_fields_witness :
  exists all_results stored,
    outcome (analyze_conversation Samples.rule_trips Samples.message None)
    = Ok all_results
    /\ dict_get "MLBasedDetector" all_results = Some (VDict stored)
    /\ (forall k, k <> "classification" ->
                  dict_get k stored
                  = dict_get k [ ("classification", VStr "manipulative");
                                 ("ml_model_confidence", VFloat (FFin 1)) ])
    /\ keys stored = ["classification"; "ml_model_confidence"].
Proof.
  apply (ml_overwrite_keeps_other_fields Samples.rule_trips Samples.message
           None EdgeSamples.ml_detector_hits
           [ ("classification", VStr "manipulative");
             ("ml_model_confidence", VFloat (FFin 1)) ]).
  - nodup_names.
  - cbn. auto.
  - reflexivity.
  - reflexivity.
Defined.

(** X4. A result that is not a mapping.  From the MLBasedDetector it
    cannot take the classification overwrite: the assignment raises a
    [TypeError] inside the [try], so the entry becomes the failure
    placeholder carrying that error.  From any other detector it is stored
    as it is, and the decision loop reports its type in a warning and goes
    on: it never flags and never raises. *)
Theorem non_mapping_result
    (self : firewall) (msg : string) (hist : option (list string))
    (d : detector) (v : pyval) (threshold : pyfloat) :
  NoDup (names self) ->
  In d (detectors self) ->
  analyze_text d msg hist = Ok v ->
  (forall r, v <> VDict r) ->
  exists all_results,
    outcome (analyze_conversation self msg hist) = Ok all_results
    /\ (class_name d = "MLBasedDetector" ->
        dict_get "MLBasedDetector" all_results
        = Some (VDict
                  [ ("error",
                     VStr ("'" ++ type_name v
                               ++ "' object does not support item assignment"));
                    ("classification", VStr "error_detector_failed") ]))
    /\ (class_name d <> "MLBasedDetector" ->
        dict_get (class_name d) all_results = Some v
        /\ check_entry (class_name d) v threshold
           = ([LogUnexpectedType (class_name d) (type_name v)], Ok None)).
Proof.
  intros Hnd Hin Hv Hnd'.
  rewrite analyze_conversation_eq. eexists. split; [reflexivity|].
  split.
  - intros Hname. rewrite <- Hname, store_all_get by assumption.
    unfold stored_entry. rewrite Hv, Hname. cbn.
    destruct v; try reflexivity. now elim (Hnd' d0).
  - intros Hname. rewrite store_all_get by assumption.
    unfold stored_entry. rewrite Hv.
    apply String.eqb_neq in Hname. rewrite Hname.
    split; [reflexivity|]. now apply check_entry_other.
Qed.

Lemma non_mapping_result_witness :
  exists all_results,
    outcome (analyze_conversation EdgeSamples.ml_returns_none
               Samples.message None) = Ok all_results
    /\ dict_get "MLBasedDetector" all_results
       = Some (VDict
                 [ ("error",
                    VStr "'NoneType' object does not support item assignment");
                   ("classification", VStr "error_detector_failed") ]).
Proof.
  destruct (non_mapping_result EdgeSamples.ml_returns_none Samples.message
              None (Detector "MLBasedDetector" (Samples.always (Ok VNone)))
              VNone default_threshold)
    as (all_results & Hres & Hml & _).
  - nodup_names.
  - cbn. auto.
  - reflexivity.
  - discriminate.
  - exists all_results. split; [exact Hres|]. now apply Hml.
Defined.

(** X5. Nothing stops two detectors from having the same class name, and
    then they share one key.  For every list of detectors the map has
    distinct keys, exactly the class names in use, hence at most one entry
    per detector; and the entry under a name is the one of the last
    detector of that name, whose result replaces the earlier ones. *)
Theorem same_name_last_wins
    (self : firewall) (msg : string) (hist : option (list string)) :
  exists all_results,
    outcome (analyze_conversation self msg hist) = Ok all_results
    /\ NoDup (keys all_results)
    /\ (forall k, In k (keys all_results) <-> In k (names self))
    /\ (List.length all_results <= List.length (detectors self))%nat
    /\ (forall before d after,
          detectors self = before ++ d :: after ->
          ~ In (class_name d) (map class_name after) ->
          (forall e, analyze_text d msg hist = Raise e ->
                     dict_get (class_name d) all_results
                     = Some (error_placeholder e))
          /\ (forall v, analyze_text d msg hist = Ok v ->
                        class_name d <> "MLBasedDetector" ->
                        dict_get (class_name d) all_results = Some v)).
Proof.
  rewrite analyze_conversation_eq. eexists. split; [reflexivity|].
  split; [apply store_all_nodup; constructor|].
  split; [|split].
  - intros k. rewrite store_all_key_iff. cbn. unfold names. tauto.
  - apply (store_all_length msg hist (detectors self) []).
  - intros before d after Hsplit Hlast. rewrite Hsplit.
    rewrite store_all_last by assumption. unfold stored_entry. split.
    + intros e He. now rewrite He.
    + intros v Hv Hml. apply String.eqb_neq in Hml. now rewrite Hv, Hml.
Qed.

Example same_name_shares_one_key :
  outcome (analyze_conversation EdgeSamples.twice_rule_based
             Samples.message None)
  = Ok [ ("RuleBasedDetector", Samples.rule_benign);
         ("InjectionDetector", Samples.injection_benign) ].
Proof. reflexivity. Qed.

(** ** Exceptions of [is_manipulative] *)

(** X6. [is_manipulative] raises exactly when, before any entry makes it
    return, the loop reaches a mapping of one of three sorts: its
    classification is not a string ([AttributeError] from [.lower()]); its
    keywords flag it and its score is not a number ([TypeError] from [>=],
    also for a score field that is present and holds [None], which the
    default does not replace); or its keywords flag it and its score is an
    int that reaches the threshold and that no float holds
    ([OverflowError] from the [:.2f] of the log message).  The exception is
    of the class named, and the entry is never the MLBasedDetector's.
    Errors, where a result has one, are strings. *)
Theorem is_manipulative_raises_on_malformed_mapping
    (self : firewall) (msg : string) (hist : option (list string))
    (threshold : pyfloat) (results : dict) :
  outcome (analyze_conversation self msg hist) = Ok results ->
  Forall (fun kv => error_is_text (snd kv) = true) results ->
  (forall e,
      outcome (is_manipulative self msg hist threshold) = Raise e ->
      exists pre name r post,
        results = pre ++ (name, VDict r) :: post
        /\ (forall n v, In (n, v) pre ->
                        outcome (check_entry n v threshold) = Ok None)
        /\ name <> "MLBasedDetector"
        /\ failure_kind name r threshold = Some (exn_type e))
  /\ (forall pre name r post kind,
        results = pre ++ (name, VDict r) :: post ->
        (forall n v, In (n, v) pre ->
                     outcome (check_entry n v threshold) = Ok None) ->
        failure_kind name r threshold = Some kind ->
        exists e,
          outcome (is_manipulative self msg hist threshold) = Raise e
          /\ exn_type e = kind).
Proof.
  intros Hres _. apply analyze_conversation_results in Hres.
  rewrite is_manipulative_eq, <- Hres. cbn [outcome snd].
  split.
  - intros e H.
    destruct (decide_raise_inv _ _ _ H)
      as (pre & name & r & post & Hsplit & Hpre & Hk).
    exists pre, name, r, post. repeat split; try assumption.
    intros ->.
    assert (Hin : In ("MLBasedDetector", VDict r) results)
      by (rewrite Hsplit; apply in_or_app; right; now left).
    rewrite Hres in Hin. apply ml_entries_neutralised in Hin.
    destruct (neutralised_walked_over _ threshold Hin) as [Hn _].
    destruct (failure_kind_raises _ _ _ _ Hk) as (e' & He' & _).
    congruence.
  - intros pre name r post kind Hsplit Hpre Hk. rewrite Hsplit.
    now apply decide_raises.
Qed.

Lemma is_manipulative_raises_on_malformed_mapping_witness :
  exists e,
    outcome (is_manipulative EdgeSamples.rule_none_label Samples.message
               None default_threshold) = Raise e
    /\ exn_type e = "AttributeError".
Proof.
  destruct (is_manipulative_raises_on_malformed_mapping
              EdgeSamples.rule_none_label Samples.message None
              default_threshold
              (("RuleBasedDetector", EdgeSamples.none_label)
                 :: tl Samples.rule_trips_results)
              eq_refl) as [_ Hraises].
  - repeat constructor.
  - apply (Hraises [] "RuleBasedDetector" [("classification", VNone)]
             (tl Samples.rule_trips_results) "AttributeError").
    + reflexivity.
    + intros ? ? [].
    + reflexivity.
Defined.

(** ** The threshold *)

(** X7. The verdict against the threshold, for every firewall and every
    detector output.  A message that passes at some threshold passes at
    every higher one.  A message flagged at some threshold is flagged at
    every lower one, unless the call then raises [OverflowError]: lowering
    the threshold can make an earlier int score qualify that the log
    message cannot show. *)
Theorem verdict_monotone_in_threshold
    (self : firewall) (msg : string) (hist : option (list string))
    (low high : pyfloat) :
  float_ge high low = true ->
  (outcome (is_manipulative self msg hist low) = Ok false ->
   outcome (is_manipulative self msg hist high) = Ok false)
  /\ (outcome (is_manipulative self msg hist high) = Ok true ->
      outcome (is_manipulative self msg hist low) = Ok true
      \/ exists e,
           outcome (is_manipulative self msg hist low) = Raise e
           /\ exn_type e = "OverflowError").
Proof.
  intros Hge. rewrite !is_manipulative_eq. cbn [outcome snd]. split.
  - now apply decide_false_higher.
  - now apply decide_true_lower.
Qed.

Lemma verdict_monotone_in_threshold_witness :
  outcome (is_manipulative Samples.rule_trips Samples.message None
             FPosInf) = Ok false.
Proof.
  apply (proj1 (verdict_monotone_in_threshold Samples.rule_trips
                  Samples.message None (FFin 1) FPosInf eq_refl)).
  reflexivity.
Defined.

Example lower_threshold_meets_overflow :
  outcome (decide [ ("RuleBasedDetector", EdgeSamples.rule_huge);
                    ("InjectionDetector",
                     VDict [ ("classification", VStr "prompt_injection");
                             ("score", VFloat FPosInf) ]) ]
             FPosInf) = Ok true
  /\ outcome (decide [ ("RuleBasedDetector", EdgeSamples.rule_huge);
                       ("InjectionDetector",
                        VDict [ ("classification", VStr "prompt_injection");
                                ("score", VFloat FPosInf) ]) ]
                default_threshold)
     = Raise (OverflowError "int too large to convert to float").
Proof. split; vm_compute; reflexivity. Qed.

(** X8. With a NaN threshold nothing is ever flagged: every comparison
    with NaN is false, so [is_manipulative] does not return [True],
    whatever the detectors return. *)
Theorem nan_threshold_never_flags
    (self : firewall) (msg : string) (hist : option (list string)) :
  outcome (is_manipulative self msg hist FNaN) <> Ok true
  /\ no_flagged_record (logs (is_manipulative self msg hist FNaN)).
Proof.
  assert (Hnq : forall name v, qualifies name v FNaN = false).
  { intros name v. destruct v as [| | | | |r]; try reflexivity.
    unfold qualifies.
    destruct (to_number (score (policy_of name) r)) as [x|];
      [rewrite float_ge_nan|]; apply andb_false_r. }
  rewrite is_manipulative_eq. cbn [logs outcome fst snd]. split.
  - intros H. destruct (decide_true_inv _ _ H)
      as (pre & name & r & post & _ & _ & Hq).
    apply triggers_qualifies in Hq. rewrite Hnq in Hq. discriminate.
  - apply no_flagged_record_app; [apply failure_log_not_flagged|].
    unfold no_flagged_record. apply forallb_forall. intros x Hx.
    destruct (is_flagged_record x) eqn:Hf; [|reflexivity].
    destruct (decide_flagged_record _ _ _ Hx Hf) as (n & r & _ & Hq & _).
    rewrite Hnq in Hq. discriminate.
Qed.

(** ** Letter case *)




(** ** Detectors without influence *)


(** X10. A detector that raises has no part in the verdict:
    [is_manipulative] answers as if that detector were not registered. *)
Theorem failed_detector_as_if_absent
    (before after : list detector) (d : detector) (e : exn)
    (msg : string) (hist : option (list string)) (threshold : pyfloat) :
  NoDup (map class_name (before ++ d :: after)) ->
  analyze_text d msg hist = Raise e ->
  outcome (is_manipulative (Firewall (before ++ d :: after)) msg hist
             threshold)
  = outcome (is_manipulative (Firewall (before ++ after)) msg hist threshold).
Proof.
  intros Hnd He. apply walked_over_as_if_absent; [assumption|].
  unfold stored_entry. now rewrite He.
Qed.

Lemma failed_detector_as_if_absent_witness :
  outcome (is_manipulative
             (Firewall ([EdgeSamples.rule_detector_quiet]
                          ++ EdgeSamples.echo_detector_fails
                          :: [EdgeSamples.injection_detector_hits]))
             Samples.message None default_threshold)
  = outcome (is_manipulative
               (Firewall ([EdgeSamples.rule_detector_quiet]
                            ++ [EdgeSamples.injection_detector_hits]))
               Samples.message None default_threshold).
Proof.
  apply (failed_detector_as_if_absent [EdgeSamples.rule_detector_quiet]
           [EdgeSamples.injection_detector_hits]
           EdgeSamples.echo_detector_fails Samples.boom).
  - nodup_names.
  - reflexivity.
Defined.

(** ** The failure log *)

(** X12. The log of [analyze_conversation] and the map agree.  The call
    logs nothing but failures; every record names a registered detector
    whose call raised the recorded exception (or, for the MLBasedDetector,
    whose result refused the classification overwrite), and the map holds
    the placeholder of that exception under the detector's name.  A
    detector that raises is always in the log. *)
Theorem failure_log_matches_map
    (self : firewall) (msg : string) (hist : option (list string)) :
  NoDup (names self) ->
  exists all_results,
    outcome (analyze_conversation self msg hist) = Ok all_results
    /\ (forall record,
          In record (logs (analyze_conversation self msg hist)) ->
          exists d e,
            In d (detectors self)
            /\ record = LogDetectorFailed (class_name d) e
            /\ dict_get (class_name d) all_results
               = Some (error_placeholder e)
            /\ (analyze_text d msg hist = Raise e
                \/ (class_name d = "MLBasedDetector"
                    /\ exists v, analyze_text d msg hist = Ok v
                                 /\ (forall r, v <> VDict r))))
    /\ (forall d e,
          In d (detectors self) ->
          analyze_text d msg hist = Raise e ->
          In (LogDetectorFailed (class_name d) e)
             (logs (analyze_conversation self msg hist))).
Proof.
  intros Hnd. rewrite analyze_conversation_eq. eexists.
  split; [reflexivity|]. cbn [logs fst]. split.
  - intros record Hin. apply in_flat_map in Hin.
    destruct Hin as (d & Hd & Hl). exists d.
    rewrite store_all_get by assumption.
    unfold failure_log, stored_entry in *.
    destruct (analyze_text d msg hist) as [v|e].
    + destruct (class_name d =? "MLBasedDetector")%string eqn:Hml;
        [|destruct Hl].
      apply String.eqb_eq in Hml.
      destruct v; try (now destruct Hl); destruct Hl as [<-|[]];
        eexists; (repeat split; [assumption|]); right;
        (split; [assumption|]); eexists; (split; [reflexivity|]);
        discriminate.
    + destruct Hl as [<-|[]]. exists e. repeat split; auto.
  - intros d e Hd He. apply in_flat_map. exists d. split; [assumption|].
    unfold failure_log. rewrite He. now left.
Qed.

Lemma failure_log_matches_map_witness :
  exists all_results,
    outcome (analyze_conversation Samples.echo_fails Samples.message None)
    = Ok all_results
    /\ dict_get "EchoChamberDetector" all_results
       = Some (error_placeholder Samples.boom)
    /\ In (LogDetectorFailed "EchoChamberDetector" Samples.boom)
         (logs (analyze_conversation Samples.echo_fails Samples.message
                  None)).
Proof.
  destruct (failure_log_matches_map Samples.echo_fails Samples.message None)
    as (all_results & Hres & _ & Hlog); [nodup_names|].
  exists all_results. split; [exact Hres|]. split.
  - cbn in Hres. injection Hres as <-. reflexivity.
  - apply (Hlog EdgeSamples.echo_detector_fails Samples.boom);
      [cbn; auto|reflexivity].
Defined.
